(** * Website-Scanner: the scan -> sanitize -> score pipeline of [app.py]

    A shallow embedding of the core functions of [src/app.py]
    ([validate_url], [scan_website], [ensure_defaults], [auto_score_website],
    [create_results_dataframe], [index]) together with the run-time behaviour
    of the Python values they handle, and the properties of the specification
    stated and proved (or refuted) against that embedding.

    Conventions of the model.
    - A Python [str] is a Rocq [string], one character per code point; the
      model covers the code points below 256.
    - A Python [float] is an IEEE 754 binary64 number, Rocq's primitive
      [float]; a Python [int] is a [Z]; [bool] is kept apart from [int] and
      coerced where Python does.
    - A Python [dict] with string keys is a [gmap string _]; the two places
      whose iteration order is observable (the literal tables the code loops
      over, and the returned score set) are association lists in source
      order.
    - Records are trees: no two sections of one record share a dict object.
    - An exception is a value of [exn]; code that can raise returns
      [exn + A].  In-place mutation is explicit state passing: a function
      that mutates its argument returns the argument's final state. *)

From Stdlib Require Import ZArith Ascii String List Bool Lia.
From Stdlib Require Import PrimFloat FloatOps SpecFloat.
From stdpp Require Import base option list strings gmap fin_maps.
Import ListNotations.
Local Open Scope string_scope.
Local Open Scope Z_scope.

Set Warnings "-register-all,-inexact-float".

(** ** Exceptions and the error monad *)

(** The exception classes the modelled code can meet.  Exceptions built by
    the program or reported by a collaborator carry their message; for the
    ones the interpreter raises itself only the class is kept ([KeyError]
    keeps the key). *)
Inductive exn : Type :=
| ValueError (msg : string)
| RequestException (msg : string)
| OtherException (msg : string)
| TypeError
| AttributeError
| KeyError (key : string)
| IndexError
| ZeroDivisionError
| OverflowError.

(** [str(e)].  Python prints a [KeyError] as the repr of its key; the
    interpreter's own messages are not spelled out by the model and are
    rendered by the class name. *)
Definition exn_str (e : exn) : string :=
  match e with
  | ValueError msg | RequestException msg | OtherException msg => msg
  | KeyError key => "'" +:+ key +:+ "'"
  | TypeError => "TypeError"
  | AttributeError => "AttributeError"
  | IndexError => "IndexError"
  | ZeroDivisionError => "ZeroDivisionError"
  | OverflowError => "OverflowError"
  end.

Definition Res (A : Type) : Type := (exn + A)%type.

Definition ret {A} (a : A) : Res A := inr a.
Definition raise {A} (e : exn) : Res A := inl e.
Definition bind {A B} (m : Res A) (k : A -> Res B) : Res B :=
  match m with
  | inl e => inl e
  | inr a => k a
  end.

Declare Scope py_scope.
Delimit Scope py_scope with py.
Notation "'let*' x ':=' m 'in' k" := (bind m (fun x => k))
  (at level 10, x name, m at level 100, k at level 200, only parsing) : py_scope.
Notation "'let*' ' p ':=' m 'in' k" := (bind m (fun x => let 'p := x in k))
  (at level 10, p strict pattern, m at level 100, k at level 200, only parsing) : py_scope.
Local Open Scope py_scope.

(** ** Strings *)

Module Str.

(** [c.isspace()] for a code point below 256: TAB..CR, FS..US, SPACE,
    NEL (0x85) and NBSP (0xA0). *)
Definition isspace (c : ascii) : bool :=
  let n := N_of_ascii c in
  ((9 <=? n) && (n <=? 13) || (28 <=? n) && (n <=? 32)
   || (n =? 133) || (n =? 160))%N.

Definition is_empty (s : string) : bool :=
  match s with
  | EmptyString => true
  | String _ _ => false
  end.

Fixpoint lstrip_by (p : ascii -> bool) (s : string) : string :=
  match s with
  | EmptyString => EmptyString
  | String c r => if p c then lstrip_by p r else s
  end.

Fixpoint rstrip_by (p : ascii -> bool) (s : string) : string :=
  match s with
  | EmptyString => EmptyString
  | String c r =>
      let r' := rstrip_by p r in
      if is_empty r' && p c then EmptyString else String c r'
  end.

(** [s.strip()] *)
Definition strip (s : string) : string := rstrip_by isspace (lstrip_by isspace s).

(** [s.startswith(p)] *)
Definition startswith (s p : string) : bool := String.prefix p s.

(** [c in s] for a one-character [c] *)
Fixpoint contains (c : ascii) (s : string) : bool :=
  match s with
  | EmptyString => false
  | String d r => Ascii.eqb c d || contains c r
  end.

(** [p in s] for a string [p] *)
Fixpoint has_substring (p s : string) : bool :=
  String.prefix p s ||
  match s with
  | EmptyString => false
  | String _ r => has_substring p r
  end.

(** [s.replace(c, "")] for a one-character [c] *)
Fixpoint remove (c : ascii) (s : string) : string :=
  match s with
  | EmptyString => EmptyString
  | String d r => if Ascii.eqb c d then remove c r else String d (remove c r)
  end.

(** [s[:i]] and [s[i+1:]] for [i = s.find(c)], when [c] occurs in [s] *)
Fixpoint split_at (c : ascii) (s : string) : option (string * string) :=
  match s with
  | EmptyString => None
  | String d r =>
      if Ascii.eqb c d then Some (EmptyString, r)
      else match split_at c r with
           | Some (a, b) => Some (String d a, b)
           | None => None
           end
  end.

(** The longest prefix of [s] none of whose characters satisfies [p]. *)
Fixpoint take_until (p : ascii -> bool) (s : string) : string :=
  match s with
  | EmptyString => EmptyString
  | String c r => if p c then EmptyString else String c (take_until p r)
  end.

Fixpoint forallb (p : ascii -> bool) (s : string) : bool :=
  match s with
  | EmptyString => true
  | String c r => p c && forallb p r
  end.

Definition len (s : string) : Z := Z.of_nat (String.length s).

Definition is_upper (c : ascii) : bool :=
  let n := N_of_ascii c in ((65 <=? n) && (n <=? 90))%N.
Definition is_lower (c : ascii) : bool :=
  let n := N_of_ascii c in ((97 <=? n) && (n <=? 122))%N.
Definition is_digit (c : ascii) : bool :=
  let n := N_of_ascii c in ((48 <=? n) && (n <=? 57))%N.

Definition lower_char (c : ascii) : ascii :=
  if is_upper c then ascii_of_N (N_of_ascii c + 32) else c.

(** [s.lower()] on ASCII letters *)
Fixpoint lower (s : string) : string :=
  match s with
  | EmptyString => EmptyString
  | String c r => String (lower_char c) (lower r)
  end.

End Str.

(** ** The library functions [validate_url] calls

    [urllib.parse.urlparse] and [html.escape] belong to the Python standard
    library, not to the repository.  They are modelled as CPython 3.10
    implements them, restricted to what [validate_url] reads: the scheme and
    the network location.  On code points below 256 the NFKC check of the
    network location never fires, so it is left out.  Later versions of
    [urlsplit] also reject a bracketed host that is not an IP literal; the
    model accepts it, as 3.10 does. *)

Module UrlLib.

(** [scheme_chars]: ASCII letters, digits and [+-.] *)
Definition scheme_char (c : ascii) : bool :=
  Str.is_lower c || Str.is_upper c || Str.is_digit c
  || Ascii.eqb c "+" || Ascii.eqb c "-" || Ascii.eqb c ".".

(** [_WHATWG_C0_CONTROL_OR_SPACE]: code points 0 to 32 *)
Definition c0_control_or_space (c : ascii) : bool := (N_of_ascii c <=? 32)%N.

(** [_UNSAFE_URL_BYTES_TO_REMOVE]: TAB, CR and LF are deleted wherever
    they stand. *)
Definition remove_unsafe (url : string) : string :=
  Str.remove "010" (Str.remove "013" (Str.remove "009" url)).

(** The scheme split of [urlsplit]: with [i = url.find(':')], when
    [i > 0] and every character of [url[:i]] is a scheme character, the
    scheme is [url[:i].lower()] and the rest is [url[i+1:]]. *)
Definition split_scheme (url : string) : string * string :=
  match Str.split_at ":" url with
  | Some (String c s, rest) =>
      if Str.forallb scheme_char (String c s)
      then (Str.lower (String c s), rest)
      else (EmptyString, url)
  | _ => (EmptyString, url)
  end.

Definition netloc_delim (c : ascii) : bool :=
  Ascii.eqb c "/" || Ascii.eqb c "?" || Ascii.eqb c "#".

(** [_splitnetloc(url, 2)[0]]: from index 2 up to the first of [/?#] *)
Definition splitnetloc (url : string) : string :=
  match url with
  | String _ (String _ r) => Str.take_until netloc_delim r
  | _ => EmptyString
  end.

Record ParseResult := { scheme : string; netloc : string }.

(** [urlparse(url)], its [scheme] and [netloc] fields. *)
Definition urlparse (url : string) : Res ParseResult :=
  let url := Str.lstrip_by c0_control_or_space url in
  let url := remove_unsafe url in
  let '(sch, url) := split_scheme url in
  if Str.startswith url "//" then
    let nl := splitnetloc url in
    if xorb (Str.contains "[" nl) (Str.contains "]" nl)
    then raise (ValueError "Invalid IPv6 URL")
    else ret {| scheme := sch; netloc := nl |}
  else ret {| scheme := sch; netloc := EmptyString |}.

Definition escape_char (c : ascii) : string :=
  if Ascii.eqb c "&" then "&amp;"
  else if Ascii.eqb c "<" then "&lt;"
  else if Ascii.eqb c ">" then "&gt;"
  else if Ascii.eqb c "034" then "&quot;"
  else if Ascii.eqb c "'" then "&#x27;"
  else String c EmptyString.

(** [html.escape(s)] with its default [quote=True]: the five replacements
    ([&] first) amount to one pass over the characters. *)
Fixpoint html_escape (s : string) : string :=
  match s with
  | EmptyString => EmptyString
  | String c r => escape_char c +:+ html_escape r
  end.

End UrlLib.

(** ** [validate_url] (app.py, lines 145-165) *)

(** The error a blank input is rejected with by the first check. *)
Definition EmptyInput : exn := ValueError "URL cannot be empty".

(** The body of the [try] block: parse, check, escape. *)
Definition check_url (url : string) : Res string :=
  let* result := UrlLib.urlparse url in
  if negb (negb (Str.is_empty (UrlLib.scheme result))
           && negb (Str.is_empty (UrlLib.netloc result)))
  then raise (ValueError "Invalid URL structure")
  else if negb (Str.contains "." (UrlLib.netloc result))
          || (Str.len (UrlLib.netloc result) <? 4)
  then raise (ValueError "Invalid domain format")
  else ret (UrlLib.html_escape url).

(** The input is a [str], so [isinstance(url, str)] holds and the first
    check is [not url].  Every exception of the [try] block is re-raised as
    a [ValueError] whose message is prefixed with [Invalid URL: ]. *)
Definition validate_url (url : string) : Res string :=
  if Str.is_empty url then raise EmptyInput
  else
    let url := Str.strip url in
    let url :=
      if Str.startswith url "http://" || Str.startswith url "https://"
      then url else "https://" +:+ url in
    match check_url url with
    | inl e => raise (ValueError ("Invalid URL: " +:+ exn_str e))
    | inr v => ret v
    end.

(** ** Python values *)

Inductive pyval : Type :=
| PNone
| PBool (b : bool)
| PInt (n : Z)
| PFloat (x : float)
| PStr (s : string)
| PList (l : list pyval)
| PDict (d : gmap string pyval).

Module Py.

(** [bool(v)] *)
Definition truthy (v : pyval) : bool :=
  match v with
  | PNone => false
  | PBool b => b
  | PInt n => negb (n =? 0)
  | PFloat x => negb (PrimFloat.eqb x 0)
  | PStr s => negb (Str.is_empty s)
  | PList l => match l with [] => false | _ :: _ => true end
  | PDict d => match map_to_list d with [] => false | _ :: _ => true end
  end.

(** [len(v)]: defined on strings, lists and dicts. *)
Definition len (v : pyval) : Res Z :=
  match v with
  | PStr s => ret (Str.len s)
  | PList l => ret (Z.of_nat (length l))
  | PDict d => ret (Z.of_nat (size d))
  | _ => raise TypeError
  end.

(** [isinstance(v, float)], [isinstance(v, int)] ([bool] is a subclass of
    [int]), [isinstance(v, bool)], [isinstance(v, str)] *)
Definition is_float (v : pyval) : bool :=
  match v with PFloat _ => true | _ => false end.
Definition is_int (v : pyval) : bool :=
  match v with PInt _ | PBool _ => true | _ => false end.
Definition is_bool (v : pyval) : bool :=
  match v with PBool _ => true | _ => false end.
Definition is_str (v : pyval) : bool :=
  match v with PStr _ => true | _ => false end.

(** [isinstance(v, (int, float))] *)
Definition is_int_or_float (v : pyval) : bool := is_int v || is_float v.

(** [isinstance(v, type(default))] for a default that is a float, an int,
    a bool or a string. *)
Definition isinstance_type_of (v default : pyval) : bool :=
  match default with
  | PFloat _ => is_float v
  | PInt _ => is_int v
  | PBool _ => is_bool v
  | PStr _ => is_str v
  | PNone => match v with PNone => true | _ => false end
  | PList _ => match v with PList _ => true | _ => false end
  | PDict _ => match v with PDict _ => true | _ => false end
  end.

(** Numbers: what the arithmetic and ordering operators accept. *)
Inductive num : Type :=
| NInt (n : Z)
| NFloat (x : float).

Definition as_num (v : pyval) : option num :=
  match v with
  | PBool b => Some (NInt (if b then 1 else 0))
  | PInt n => Some (NInt n)
  | PFloat x => Some (NFloat x)
  | _ => None
  end.

(** An integer against a float, compared exactly as Python does (no
    rounding of the integer); [None] when the float is a NaN. *)
Definition Z_cmp_float (z : Z) (x : float) : option comparison :=
  match Prim2SF x with
  | S754_nan => None
  | S754_zero _ => Some (z ?= 0)
  | S754_infinity neg => Some (if neg then Gt else Lt)
  | S754_finite neg m e =>
      let mz := if neg then Z.neg m else Z.pos m in
      Some (if 0 <=? e then z ?= mz * 2 ^ e else z * 2 ^ (- e) ?= mz)
  end.

Definition num_lt (a b : num) : bool :=
  match a, b with
  | NInt x, NInt y => x <? y
  | NFloat x, NFloat y => PrimFloat.ltb x y
  | NInt x, NFloat y =>
      match Z_cmp_float x y with Some Lt => true | _ => false end
  | NFloat x, NInt y =>
      match Z_cmp_float y x with Some Gt => true | _ => false end
  end.

(** [v < c] and [v > c] for a numeric literal [c]: a [TypeError] unless
    [v] is a number. *)
Definition lt (v : pyval) (c : num) : Res bool :=
  match as_num v with
  | Some a => ret (num_lt a c)
  | None => raise TypeError
  end.
Definition gt (v : pyval) (c : num) : Res bool :=
  match as_num v with
  | Some a => ret (num_lt c a)
  | None => raise TypeError
  end.

(** The least magnitude that rounds to infinity: [2^1024 - 2^970]. *)
Definition overflow_threshold : Z := 2 ^ 1024 - 2 ^ 970.

(** [float(z)]: round to nearest, ties to even; [OverflowError] when the
    result would not be finite. *)
Definition float_of_Z (z : Z) : Res float :=
  if overflow_threshold <=? Z.abs z then raise OverflowError
  else ret (SF2Prim (binary_normalize prec emax z 0 false)).

(** [a / b] on two ints: the correctly rounded quotient.  The quotient is
    computed to 64 bits and more, with a sticky bit for the remainder, and
    rounded once. *)
Definition int_true_div (a b : Z) : Res float :=
  if b =? 0 then raise ZeroDivisionError
  else
    let neg := xorb (a <? 0) (b <? 0) in
    let a' := Z.abs a in
    let b' := Z.abs b in
    if overflow_threshold * b' <=? a' then raise OverflowError
    else
      let k := Z.max 0 (Z.log2 b' - Z.log2 a' + 64) in
      let n := a' * 2 ^ k in
      let m := 2 * (n / b') + (if n mod b' =? 0 then 0 else 1) in
      ret (SF2Prim (binary_normalize prec emax (if neg then - m else m)
                                     (- (k + 1)) neg)).

Definition num_truediv (a b : num) : Res float :=
  match a, b with
  | NInt x, NInt y => int_true_div x y
  | _, _ =>
      let* x := match a with NInt n => float_of_Z n | NFloat x => ret x end in
      let* y := match b with NInt n => float_of_Z n | NFloat y => ret y end in
      if PrimFloat.eqb y 0 then raise ZeroDivisionError
      else ret (PrimFloat.div x y)
  end.

(** [a / b] *)
Definition truediv (a b : pyval) : Res float :=
  match as_num a, as_num b with
  | Some x, Some y => num_truediv x y
  | _, _ => raise TypeError
  end.

(** [d[key]] on a dict *)
Definition item (d : gmap string pyval) (key : string) : Res pyval :=
  match d !! key with
  | Some v => ret v
  | None => raise (KeyError key)
  end.

(** [l[i]]: a negative index counts from the end. *)
Definition index {A} (l : list A) (i : Z) : Res A :=
  let n := Z.of_nat (length l) in
  let j := if i <? 0 then n + i else i in
  if (0 <=? j) && (j <? n)
  then match nth_error l (Z.to_nat j) with
       | Some x => ret x
       | None => raise IndexError
       end
  else raise IndexError.

(** A dict literal *)
Definition dict (l : list (string * pyval)) : pyval := PDict (list_to_map l).

(** [d.get(key, default)]: only a dict has the method. *)
Definition get (v : pyval) (key : string) (dflt : pyval) : Res pyval :=
  match v with
  | PDict d => ret (default dflt (d !! key))
  | _ => raise AttributeError
  end.

End Py.


(** ** The rubric table [CATEGORIES] (app.py, lines 39-102)

    Two entries are dicts with a [scores] list and a [weight]; the other six
    are bare lists of five recommendations. *)

Inductive Category : Type :=
| Weighted (scores : list string) (weight : float)
| Listed (scores : list string).

Definition CATEGORIES : gmap string Category :=
  list_to_map
    [("First Impressions & Branding",
      Weighted
        ["Lacks professional design and messaging. Recommend full redesign.";
         "Unclear offer. Suggest branding update, clearer value prop, and trust elements.";
         "Decent design, but needs polish. Recommend refining layout and visuals.";
         "Strong branding with minor design updates suggested.";
         "Excellent branding. No improvements needed."]
        1.2);
     ("User Experience (UX)",
      Weighted
        ["Confusing journey. Full UX overhaul needed.";
         "Navigation and flow inconsistent. Suggest restructuring.";
         "Usable, but some friction. Recommend usability testing.";
         "Good UX with minor friction points. Suggest tweaks.";
         "Excellent UX. No changes needed."]
        1.3);
     ("Performance & Speed",
      Listed
        ["Extremely slow. Recommend full optimization (hosting, images, scripts).";
         "Slow load times. Suggest compressing assets and optimizing code.";
         "Acceptable speed. Room for improvement with lazy loading/CDN.";
         "Good performance with small issues to address.";
         "Excellent performance. No changes needed."]);
     ("Mobile Responsiveness",
      Listed
        ["Poor experience on mobile. Recommend responsive redesign.";
         "Major mobile issues. Redesign mobile layout and fix touch elements.";
         "Responsive but with usability gaps. Suggest mobile-specific adjustments.";
         "Good responsiveness. Test and refine further.";
         "Perfect mobile design. No improvements needed."]);
     ("SEO & Visibility",
      Listed
        ["No SEO foundations. Recommend full setup (meta, sitemap, schema).";
         "Minimal SEO. Recommend on-page SEO and metadata improvements.";
         "Basic SEO setup. Recommend keyword and content optimization.";
         "Good SEO. Suggest content strategy enhancements.";
         "Excellent SEO. No improvements needed."]);
     ("Security & Compliance",
      Listed
        ["No HTTPS or compliance. Urgent fixes needed (SSL, policy, updates).";
         "Basic security but missing compliance features. Recommend updates.";
         "Secure but outdated components. Suggest plugin/CMS updates.";
         "Secure with minor improvements needed.";
         "Fully secure and compliant. No changes needed."]);
     ("Accessibility",
      Listed
        ["No accessibility. Recommend WCAG audit and full compliance plan.";
         "Major issues (contrast, keyboard nav). Recommend improvements.";
         "Some basics present. Suggest screen reader and contrast review.";
         "Mostly compliant. Suggest accessibility testing tools.";
         "Fully compliant and accessible. Great work!"]);
     ("Analytics & Conversions",
      Listed
        ["No tracking. Recommend GA4, goal setup, CRM integration.";
         "Basic analytics only. Add events and conversion goals.";
         "Some tracking in place. Recommend UTM and funnel tracking.";
         "Well-tracked site. Suggest dashboards and heatmaps.";
         "Excellent analytics. Fully optimized."])].

(** ** The collaborators

    What the core consumes from outside: the clock, the network transport
    and the markup parser.  Their answers are inputs of the model. *)

(** What the parsed page reports to the extraction block of [scan_website]
    (lines 224-257). *)
Record Soup : Type := {
  soup_title : option (option string);   (* [soup.title], then its [.string] *)
  meta_description : option string;      (* the description tag's [content] *)
  has_viewport : bool;
  has_icon : bool;
  canonical_href : option string;
  n_img_alt : Z;
  html_lang : bool;                      (* [bool(html_tag.get('lang', ''))] *)
  n_aria : Z;
  n_img : Z;
  n_stylesheet : Z;
  n_script_src : Z
}.

(** A response that [session.get] returned and [raise_for_status] let
    through; its body is taken as read. *)
Record Response : Type := {
  resp_url : string;                     (* [response.url], after redirects *)
  content_length : Z;                    (* [len(response.content)] *)
  parsed : string + Soup;                (* the message of a parse error, or the page *)
  header_hsts : bool;
  header_csp : bool;
  header_xfo : bool
}.

Record Env : Type := {
  now_iso : string;                      (* [datetime.now().isoformat()] *)
  time_start : float;                    (* [time.time()] before the request *)
  time_end : float;                      (* [time.time()] after it *)
  session_get : string -> exn + Response;  (* [session.get] and [raise_for_status] *)
  text_words : string -> option Z        (* word count of the p/h1/h2/h3 text; [None] when parsing raises *)
}.

(** ** [initialize_results] (lines 104-143) *)

Definition initialize_results (w : Env) : gmap string pyval :=
  list_to_map
    [("basic", Py.dict [("load_time", PFloat 0.0);
                        ("scan_timestamp", PStr (now_iso w))]);
     ("meta", Py.dict [("title", PStr "");
                       ("title_length", PInt 0);
                       ("description", PStr "");
                       ("viewport", PBool false);
                       ("has_favicon", PBool false);
                       ("canonical", PStr "");
                       ("og_tags", Py.dict [])]);
     ("resources", Py.dict [("images", PInt 0);
                            ("stylesheets", PInt 0);
                            ("scripts", PInt 0)]);
     ("performance", Py.dict [("page_size_kb", PFloat 0.0);
                              ("requests", PInt 0);
                              ("dom_elements", PInt 0);
                              ("dom_depth", PInt 0)]);
     ("security", Py.dict [("https", PBool false);
                           ("hsts", PBool false);
                           ("content_security_policy", PBool false);
                           ("x_frame_options", PBool false)]);
     ("accessibility", Py.dict [("alt_text_images", PInt 0);
                                ("lang_attribute", PBool false);
                                ("aria_attributes", PInt 0)]);
     ("issues", PList [])].

(** ** [auto_score_website] (lines 285-470) *)

(** A score set: category name to score, in insertion order. *)
Definition ScoreSet : Type := list (string * Z).

Definition required_sections : list (string * list (string * pyval)) :=
  [("basic", [("load_time", PFloat 8.0)]);
   ("performance", [("page_size_kb", PFloat 1000.0);
                    ("requests", PInt 30);
                    ("dom_depth", PInt 20)]);
   ("security", []);
   ("meta", []);
   ("accessibility", []);
   ("resources", [])].

Definition page_size_warning : string := "Invalid page_size_kb, resetting to default".
Definition analysis_data_warning : string :=
  "Invalid analysis_data - initializing default structure".

(** One turn of the inner loop (lines 308-316) on the section dict [sec]:
    [page_size_kb] is type-checked and reset with a warning, every other
    key is only filled in when missing ([setdefault]).  The default of
    [page_size_kb] is a float already, so [float(default_value)] is it. *)
Definition fill_default (sec : gmap string pyval) (key : string)
    (default_value : pyval) : gmap string pyval * list string :=
  if String.eqb key "page_size_kb" then
    let current_val := default PNone (sec !! key) in
    if negb (Py.is_int_or_float current_val)
    then (<[key := default_value]> sec, [page_size_warning])
    else (sec, [])
  else
    match sec !! key with
    | Some _ => (sec, [])
    | None => (<[key := default_value]> sec, [])
    end.

Fixpoint fill_defaults (sec : gmap string pyval) (defaults : list (string * pyval))
  : gmap string pyval * list string :=
  match defaults with
  | [] => (sec, [])
  | (key, default_value) :: rest =>
      let '(sec1, log1) := fill_default sec key default_value in
      let '(sec2, log2) := fill_defaults sec1 rest in
      (sec2, (log1 ++ log2)%list)
  end.

(** One turn of the outer loop (lines 306-316): [setdefault] the section,
    then fill its keys in place.  A section that is present and is not a
    dict has neither [get] nor [setdefault]; the first key raises. *)
Definition fill_section (analysis_data : gmap string pyval) (section : string)
    (defaults : list (string * pyval))
  : gmap string pyval * list string * Res unit :=
  let analysis_data :=
    match analysis_data !! section with
    | Some _ => analysis_data
    | None => <[section := PDict ∅]> analysis_data
    end in
  match defaults with
  | [] => (analysis_data, [], ret tt)
  | _ :: _ =>
      match analysis_data !! section with
      | Some (PDict sec) =>
          let '(sec', log) := fill_defaults sec defaults in
          (<[section := PDict sec']> analysis_data, log, ret tt)
      | _ => (analysis_data, [], raise AttributeError)
      end
  end.

Fixpoint fill_sections (analysis_data : gmap string pyval)
    (sections : list (string * list (string * pyval)))
  : gmap string pyval * list string * Res unit :=
  match sections with
  | [] => (analysis_data, [], ret tt)
  | (section, defaults) :: rest =>
      match fill_section analysis_data section defaults with
      | (ad1, log1, inr _) =>
          let '(ad2, log2, r) := fill_sections ad1 rest in
          (ad2, (log1 ++ log2)%list, r)
      | (ad1, log1, inl e) => (ad1, log1, inl e)
      end
  end.

(** The threshold chains of the performance block (lines 337-363), each
    giving what it adds to [perf_score]. *)
Definition load_time_points (load_time : pyval) : Res Z :=
  let* c := Py.lt load_time (Py.NFloat 1.5) in
  if c then ret 4 else
  let* c := Py.lt load_time (Py.NInt 3) in
  if c then ret 3 else
  let* c := Py.lt load_time (Py.NInt 5) in
  if c then ret 2 else
  let* c := Py.lt load_time (Py.NInt 8) in
  if c then ret 1 else ret 0.

Definition page_size_points (page_size : pyval) : Res Z :=
  let* c := Py.lt page_size (Py.NInt 300) in
  if c then ret 2 else
  let* c := Py.lt page_size (Py.NInt 800) in
  if c then ret 1 else ret 0.

Definition requests_points (requests : pyval) : Res Z :=
  let* c := Py.lt requests (Py.NInt 15) in
  if c then ret 2 else
  let* c := Py.lt requests (Py.NInt 30) in
  if c then ret 1 else ret 0.

Definition dom_depth_points (dom_depth : pyval) : Res Z :=
  let* c := Py.lt dom_depth (Py.NInt 15) in
  if c then ret 1 else
  let* c := Py.gt dom_depth (Py.NInt 30) in
  if c then ret (-1) else ret 0.

(** The performance accumulator [perf_score] before the final clamp. *)
Definition perf_accumulator (load_time page_size requests dom_depth : pyval) : Res Z :=
  let perf_score := 0 in
  let* p := load_time_points load_time in
  let perf_score := perf_score + p in
  let* p := page_size_points page_size in
  let perf_score := perf_score + p in
  let* p := requests_points requests in
  let perf_score := perf_score + p in
  let* p := dom_depth_points dom_depth in
  let perf_score := perf_score + p in
  ret perf_score.

(** Lines 329-365 *)
Definition performance_score (basic perf : gmap string pyval) : Res Z :=
  let* load_time := Py.item basic "load_time" in
  let* page_size := Py.item perf "page_size_kb" in
  let* requests := Py.item perf "requests" in
  let* dom_depth := Py.item perf "dom_depth" in
  let* perf_score := perf_accumulator load_time page_size requests dom_depth in
  ret (Z.min (Z.max 1 (perf_score / 2)) 5).

(** Lines 367-376 *)
Definition security_score (security : pyval) : Res Z :=
  let sec_score := 1 in
  let* https := Py.get security "https" (PBool false) in
  let sec_score := sec_score + (if Py.truthy https then 3 else 0) in
  let* hsts := Py.get security "hsts" (PBool false) in
  let sec_score := sec_score + (if Py.truthy hsts then 1 else 0) in
  let* csp := Py.get security "content_security_policy" (PBool false) in
  let sec_score := sec_score + (if Py.truthy csp then 1 else 0) in
  let* xfo := Py.get security "x_frame_options" (PBool false) in
  let sec_score := sec_score + (if Py.truthy xfo then 1 else 0) in
  ret (Z.min sec_score 5).

(** [text and lo <= len(text) <= hi] *)
Definition length_within (text : pyval) (lo hi : Z) : Res bool :=
  if Py.truthy text then
    let* n := Py.len text in
    ret ((lo <=? n) && (n <=? hi))
  else ret false.

(** Lines 378-403.  Besides the score the block leaves [title] and
    [description] to the first-impressions block. *)
Definition seo_score (meta : pyval) : Res (Z * pyval * pyval) :=
  let seo_score := 1 in
  let* title := Py.get meta "title" (PStr "") in
  let* c := length_within title 30 60 in
  let seo_score := if c then seo_score + 2 else seo_score in
  let* description := Py.get meta "description" (PStr "") in
  let* c := length_within description 50 160 in
  let seo_score := if c then seo_score + 2 else seo_score in
  let* viewport := Py.get meta "viewport" (PBool false) in
  let seo_score := if Py.truthy viewport then seo_score + 1 else seo_score in
  let* canonical := Py.get meta "canonical" (PStr "") in
  let seo_score := if Py.truthy canonical then seo_score + 1 else seo_score in
  let* og_tags := Py.get meta "og_tags" (Py.dict []) in
  let seo_score := if Py.truthy og_tags then seo_score + 1 else seo_score in
  ret (Z.min seo_score 5, title, description).

(** Lines 405-414 *)
Definition mobile_score (meta resources : pyval) : Res Z :=
  let mobile_score := 1 in
  let* viewport := Py.get meta "viewport" (PBool false) in
  let mobile_score := if Py.truthy viewport then mobile_score + 3 else mobile_score in
  let* stylesheets := Py.get resources "stylesheets" (PInt 0) in
  let* c := Py.gt stylesheets (Py.NInt 0) in
  let mobile_score := if c then mobile_score + 1 else mobile_score in
  ret (Z.min mobile_score 5).

(** Lines 416-426 *)
Definition first_impressions_score (meta title description : pyval) : Res Z :=
  let first_imp_score := 2 in
  let* has_favicon := Py.get meta "has_favicon" (PBool false) in
  let first_imp_score :=
    if Py.truthy has_favicon then first_imp_score + 1 else first_imp_score in
  let first_imp_score :=
    if Py.truthy title then first_imp_score + 1 else first_imp_score in
  let first_imp_score :=
    if Py.truthy description then first_imp_score + 1 else first_imp_score in
  ret (Z.min first_imp_score 5).

(** Lines 428-445.  The block runs only for a non-empty [response_text];
    the bare [except] swallows whatever the parser raises. *)
Definition content_quality_score (w : Env) (response_text : option string) : Z :=
  let content_score := 3 in
  let content_score :=
    match response_text with
    | Some text =>
        if Str.is_empty text then content_score
        else match text_words w text with
             | Some word_count =>
                 if 500 <? word_count then content_score + 1
                 else if word_count <? 100 then content_score - 1
                 else content_score
             | None => content_score
             end
    | None => content_score
    end in
  Z.min (Z.max 1 content_score) 5.

(** Lines 447-468 *)
Definition accessibility_score (resources accessibility : pyval) : Res Z :=
  let accessibility_score := 1 in
  let* total_images := Py.get resources "images" (PInt 0) in
  let* alt_images := Py.get accessibility "alt_text_images" (PInt 0) in
  let* c := Py.gt total_images (Py.NInt 0) in
  let* accessibility_score :=
    if c then
      let* alt_ratio := Py.truediv alt_images total_images in
      if PrimFloat.ltb 0.9 alt_ratio then ret (accessibility_score + 2)
      else if PrimFloat.ltb 0.5 alt_ratio then ret (accessibility_score + 1)
      else ret accessibility_score
    else ret accessibility_score in
  let* lang_attribute := Py.get accessibility "lang_attribute" (PBool false) in
  let accessibility_score :=
    if Py.truthy lang_attribute then accessibility_score + 1 else accessibility_score in
  let* aria_attributes := Py.get accessibility "aria_attributes" (PInt 0) in
  let* c := Py.gt aria_attributes (Py.NInt 0) in
  let accessibility_score := if c then accessibility_score + 1 else accessibility_score in
  ret (Z.min accessibility_score 5).

(** [d[key]] where the code then uses the value as a dict with [d[key][k]] *)
Definition section_dict (v : pyval) : Res (gmap string pyval) :=
  match v with
  | PDict d => ret d
  | _ => raise TypeError
  end.

(** Lines 318-470: the scoring proper, on the record as the loops above
    left it.  It only reads. *)
Definition compute_scores (w : Env) (analysis_data : gmap string pyval)
    (response_text : option string) : Res ScoreSet :=
  let* basic := Py.item analysis_data "basic" in
  let* perf := Py.item analysis_data "performance" in
  let* security := Py.item analysis_data "security" in
  let* meta := Py.item analysis_data "meta" in
  let* accessibility := Py.item analysis_data "accessibility" in
  let* resources := Py.item analysis_data "resources" in
  let* basic_d := section_dict basic in
  let* perf_d := section_dict perf in
  let* s_perf := performance_score basic_d perf_d in
  let* s_sec := security_score security in
  let* '(s_seo, title, description) := seo_score meta in
  let* s_mobile := mobile_score meta resources in
  let* s_first := first_impressions_score meta title description in
  let s_content := content_quality_score w response_text in
  let* s_acc := accessibility_score resources accessibility in
  ret [("Performance & Speed", s_perf);
       ("Security & Compliance", s_sec);
       ("SEO & Visibility", s_seo);
       ("Mobile Responsiveness", s_mobile);
       ("First Impressions & Branding", s_first);
       ("Content Quality", s_content);
       ("Accessibility", s_acc)].

(** The outcome of a call: the final state of the object passed as
    [analysis_data], the warnings logged, and the returned score set or the
    exception raised. *)
Record ScoreCall : Type := {
  record_after : pyval;
  logged : list string;
  returned : Res ScoreSet
}.

Definition auto_score_website (w : Env) (analysis_data : pyval)
    (response_text : option string) : ScoreCall :=
  match analysis_data with
  | PDict d =>
      let '(d', log, r) := fill_sections d required_sections in
      {| record_after := PDict d';
         logged := log;
         returned := let* _ := r in compute_scores w d' response_text |}
  | _ =>
      (* the name is rebound to a fresh record; the caller's object stays *)
      let '(d', log, r) := fill_sections (initialize_results w) required_sections in
      {| record_after := analysis_data;
         logged := analysis_data_warning :: log;
         returned := let* _ := r in compute_scores w d' response_text |}
  end.

(** [scores[category]] *)
Definition score_of (scores : ScoreSet) (category : string) : option Z :=
  snd <$> find (fun kv => String.eqb (fst kv) category) scores.

(** ** [create_results_dataframe] (lines 472-487) *)

Record Row : Type := {
  Section_ : string;
  Score : Z;
  Recommendation : string
}.

(** The recommendation looked up for one category.  A category missing
    from [CATEGORIES] makes [CATEGORIES.get(category, {})] the empty dict,
    which is a dict: the first branch is taken and [CATEGORIES[category]]
    raises [KeyError].  The fallback list of the second branch is never
    reached. *)
Definition recommendation_for (category : string) (score : Z) : Res string :=
  match CATEGORIES !! category with
  | Some (Weighted scores _) => Py.index scores (score - 1)
  | None => raise (KeyError category)
  | Some (Listed scores) => Py.index scores (score - 1)
  end.

Fixpoint dataframe_rows (items : ScoreSet) : Res (list Row) :=
  match items with
  | [] => ret []
  | (category, score) :: rest =>
      let* recommendation := recommendation_for category score in
      let* data := dataframe_rows rest in
      ret ({| Section_ := category; Score := score;
              Recommendation := recommendation |} :: data)
  end.

Definition create_results_dataframe (scores : ScoreSet) (url : string) : Res (list Row) :=
  dataframe_rows scores.

(** ** [ensure_defaults] (lines 728-746) *)

Definition sanitizer_defaults : list (string * list (string * pyval)) :=
  [("basic", [("load_time", PFloat 0.0)]);
   ("performance", [("page_size_kb", PFloat 0.0);
                    ("requests", PInt 0);
                    ("dom_depth", PInt 0)]);
   ("meta", [("viewport", PBool false); ("title", PStr ""); ("description", PStr "")]);
   ("resources", [("stylesheets", PInt 0)]);
   ("security", [("https", PBool false)]);
   ("accessibility", [("alt_text_images", PInt 0);
                      ("aria_attributes", PInt 0);
                      ("lang_attribute", PBool false)])].

(** Lines 742-744 on the section dict [sec]: override when the key is
    missing or its value is not an instance of the default's type. *)
Definition fix_field (sec : gmap string pyval) (key : string) (val : pyval)
  : gmap string pyval :=
  match sec !! key with
  | Some v => if Py.isinstance_type_of v val then sec else <[key := val]> sec
  | None => <[key := val]> sec
  end.

Definition fix_fields (sec : gmap string pyval) (fields : list (string * pyval))
  : gmap string pyval :=
  foldl (fun sec kv => fix_field sec (fst kv) (snd kv)) sec fields.

(** What line 742 or 743 raises on its first key when the section is
    present and is not a dict: [key not in sec] is a [TypeError] on a value
    that is no container; on a string or a list it is evaluated, and then
    either [sec[key]] (a [TypeError]) or [sec.get(key)] (an
    [AttributeError]) fails. *)
Definition not_a_dict_error (sec : pyval) (key : string) : exn :=
  match sec with
  | PStr s => if Str.has_substring key s then TypeError else AttributeError
  | PList l =>
      if existsb (fun v => match v with PStr k => String.eqb k key | _ => false end) l
      then TypeError else AttributeError
  | _ => TypeError
  end.

Definition fix_section (scan_data : gmap string pyval) (section : string)
    (fields : list (string * pyval)) : Res (gmap string pyval) :=
  let sec := default (PDict ∅) (scan_data !! section) in
  match sec with
  | PDict d => ret (<[section := PDict (fix_fields d fields)]> scan_data)
  | _ =>
      match fields with
      | [] => ret scan_data
      | (key, _) :: _ => raise (not_a_dict_error sec key)
      end
  end.

Fixpoint fix_sections (scan_data : gmap string pyval)
    (defaults : list (string * list (string * pyval))) : Res (gmap string pyval) :=
  match defaults with
  | [] => ret scan_data
  | (section, fields) :: rest =>
      let* scan_data := fix_section scan_data section fields in
      fix_sections scan_data rest
  end.

(** The record is mutated in place and returned; the model returns its
    final state.  The two logging calls (lines 743 and 745) leave the record
    alone and are not modelled.  Building their text can itself raise, on a
    value whose text the interpreter refuses to build (an int of more than
    4300 digits, a value nested too deep), so the call can raise where the
    model returns.  The model is of the record: whenever the call returns,
    it returns what the model returns, and the statements about the
    sanitizer are made of the record it returned. *)
Definition ensure_defaults (scan_data : pyval) : Res pyval :=
  match scan_data with
  | PDict d =>
      let* d' := fix_sections d sanitizer_defaults in
      ret (PDict d')
  | _ => raise AttributeError
  end.

(** ** [scan_website] (lines 184-283) *)

Inductive Status : Type := success | error.

Record ScanResult : Type := {
  status : Status;
  message : option string;
  data : gmap string pyval
}.

(** The state a scan works on: the [results] record it mutates, and the
    URLs it has asked the transport for. *)
Record ScanState : Type := {
  results : gmap string pyval;
  requested : list string
}.

(** Computations over the scan state that may raise; the state reached when
    an exception is raised is what the handler sees. *)
Definition Scan (A : Type) : Type := ScanState -> ScanState * Res A.

Module ScanM.

Definition ret {A} (a : A) : Scan A := fun st => (st, inr a).
Definition raise {A} (e : exn) : Scan A := fun st => (st, inl e).
Definition lift {A} (r : Res A) : Scan A := fun st => (st, r).
Definition bind {A B} (m : Scan A) (k : A -> Scan B) : Scan B :=
  fun st =>
    match m st with
    | (st', inr a) => k a st'
    | (st', inl e) => (st', inl e)
    end.

(** [try: m except ...: h e]; a handler [None] lets the exception pass. *)
Definition try_except {A} (m : Scan A) (h : exn -> option (Scan A)) : Scan A :=
  fun st =>
    match m st with
    | (st', inr a) => (st', inr a)
    | (st', inl e) =>
        match h e with
        | Some handler => handler st'
        | None => (st', inl e)
        end
    end.

(** [results[section][key] = v] *)
Definition set_field (section key : string) (v : pyval) : Scan unit :=
  fun st =>
    match results st !! section with
    | Some (PDict d) =>
        ({| results := <[section := PDict (<[key := v]> d)]> (results st);
            requested := requested st |}, inr tt)
    | Some _ => (st, inl TypeError)
    | None => (st, inl (KeyError section))
    end.

(** [results['issues'].append(msg)] *)
Definition append_issue (msg : string) : Scan unit :=
  fun st =>
    match results st !! "issues" with
    | Some (PList l) =>
        ({| results := <["issues" := PList (l ++ [PStr msg])]> (results st);
            requested := requested st |}, inr tt)
    | Some _ => (st, inl AttributeError)
    | None => (st, inl (KeyError "issues"))
    end.

(** [session.get(url, ...)] followed by [raise_for_status()] *)
Definition fetch (w : Env) (url : string) : Scan Response :=
  fun st =>
    ({| results := results st; requested := (requested st ++ [url])%list |},
     session_get w url).

Fixpoint set_fields (writes : list (string * string * pyval)) : Scan unit :=
  match writes with
  | [] => ret tt
  | (section, key, v) :: rest => bind (set_field section key v) (fun _ => set_fields rest)
  end.

End ScanM.

Notation "'do*' x ':=' m 'in' k" := (ScanM.bind m (fun x => k))
  (at level 10, x name, m at level 100, k at level 200, only parsing) : py_scope.

(** Lines 188-196: the numeric keys are re-checked on the fresh record. *)
Definition required_keys : list (string * list (string * pyval)) :=
  [("performance", [("page_size_kb", PFloat 0.0); ("requests", PInt 0); ("dom_depth", PInt 0)]);
   ("basic", [("load_time", PFloat 0.0)])].

Definition require_numeric (sec : gmap string pyval) (defaults : list (string * pyval))
  : gmap string pyval :=
  foldl (fun sec kv =>
           if negb (Py.is_int_or_float (default PNone (sec !! fst kv)))
           then <[fst kv := snd kv]> sec else sec)
        sec defaults.

Fixpoint require_sections (results : gmap string pyval)
    (required : list (string * list (string * pyval))) : Res (gmap string pyval) :=
  match required with
  | [] => ret results
  | (section, defaults) :: rest =>
      match default (PDict ∅) (results !! section) with
      | PDict sec =>
          require_sections (<[section := PDict (require_numeric sec defaults)]> results) rest
      | _ =>
          match defaults with
          | [] => require_sections results rest
          | _ :: _ => raise AttributeError
          end
      end
  end.

(** The assignments of the extraction block (lines 227-257), in order. *)
Definition extraction_writes (response : Response) (soup : Soup)
  : list (string * string * pyval) :=
  (match soup_title soup with
   | Some title_string =>
       let title := default "" title_string in
       [("meta", "title", PStr title); ("meta", "title_length", PInt (Str.len title))]
   | None => []
   end ++
   [("meta", "description", PStr (default "" (meta_description soup)));
    ("meta", "viewport", PBool (has_viewport soup));
    ("meta", "has_favicon", PBool (has_icon soup));
    ("meta", "canonical", PStr (default "" (canonical_href soup)));
    ("accessibility", "alt_text_images", PInt (n_img_alt soup));
    ("accessibility", "lang_attribute", PBool (html_lang soup));
    ("accessibility", "aria_attributes", PInt (n_aria soup));
    ("resources", "images", PInt (n_img soup));
    ("resources", "stylesheets", PInt (n_stylesheet soup));
    ("resources", "scripts", PInt (n_script_src soup));
    ("security", "hsts", PBool (header_hsts response));
    ("security", "content_security_policy", PBool (header_csp response));
    ("security", "x_frame_options", PBool (header_xfo response))])%list.

(** [time.time() - start_time] *)
Definition elapsed (w : Env) : float := PrimFloat.sub (time_end w) (time_start w).

(** Lines 206-262: the request and what follows it inside the [with]. *)
Definition fetch_and_extract (w : Env) (validated_url : string) : Scan unit :=
  do* response := ScanM.fetch w validated_url in
  do* _ := ScanM.set_field "basic" "load_time" (PFloat (elapsed w)) in
  do* size := ScanM.lift (Py.int_true_div (content_length response) 1024) in
  do* _ := ScanM.set_field "performance" "page_size_kb" (PFloat size) in
  do* _ := ScanM.set_field "security" "https"
        (PBool (Str.startswith (resp_url response) "https://")) in
  ScanM.try_except
    (match parsed response with
     | inr soup => ScanM.set_fields (extraction_writes response soup)
     | inl msg => ScanM.raise (OtherException msg)
     end)
    (fun parse_error =>
       Some (ScanM.append_issue ("HTML parsing error: " +:+ exn_str parse_error))).

(** Lines 264-268 *)
Definition on_request_error (w : Env) (req_error : exn) : option (Scan unit) :=
  match req_error with
  | RequestException _ =>
      Some (do* _ := ScanM.append_issue ("Request failed: " +:+ exn_str req_error) in
            do* _ := ScanM.set_field "basic" "load_time" (PFloat (elapsed w)) in
            ScanM.set_field "performance" "page_size_kb" (PFloat 0.0))
  | _ => None
  end.

(** Lines 270-275 *)
Definition final_validation : Scan unit :=
  fun st =>
    let results1 :=
      match results st !! "performance" with
      | Some _ => results st
      | None => <["performance" := PDict ∅]> (results st)
      end in
    match results1 !! "performance" with
    | Some (PDict perf) =>
        let page_size := default (PFloat 0.0) (perf !! "page_size_kb") in
        let perf := if negb (Py.is_int_or_float page_size)
                    then <["page_size_kb" := PFloat 0.0]> perf else perf in
        ({| results := <["performance" := PDict perf]> results1;
            requested := requested st |}, inr tt)
    | _ => ({| results := results1; requested := requested st |}, inl AttributeError)
    end.

(** Lines 198-277: the body of the outer [try]. *)
Definition scan_body (w : Env) (url : string) : Scan unit :=
  do* validated_url := ScanM.lift (validate_url url) in
  do* _ := ScanM.try_except (fetch_and_extract w validated_url) (on_request_error w) in
  final_validation.

(** Lines 279-283 *)
Definition on_scan_error (e : exn) : Scan unit :=
  do* _ := ScanM.append_issue ("Scan error: " +:+ exn_str e) in
  ScanM.set_field "performance" "page_size_kb" (PFloat 0.0).

(** The outcome of a scan: the URLs requested from the transport, and the
    returned dict (or the exception that left [scan_website]). *)
Record ScanCall : Type := {
  requests_sent : list string;
  scan_returned : Res ScanResult
}.

Definition scan_website (w : Env) (url : string) : ScanCall :=
  match require_sections (initialize_results w) required_keys with
  | inl e => {| requests_sent := []; scan_returned := inl e |}
  | inr results0 =>
      let st0 := {| results := results0; requested := [] |} in
      match scan_body w url st0 with
      | (st, inr _) =>
          {| requests_sent := requested st;
             scan_returned :=
               inr {| status := success; message := None; data := results st |} |}
      | (st, inl e) =>
          match on_scan_error e st with
          | (st', inr _) =>
              {| requests_sent := requested st';
                 scan_returned :=
                   inr {| status := error; message := Some (exn_str e);
                          data := results st' |} |}
          | (st', inl e') => {| requests_sent := requested st'; scan_returned := inl e' |}
          end
      end
  end.

(** ** [index], the POST branch (lines 750-795) *)

Inductive Page : Type :=
| IndexPage (error : option string)
| ResultsPage (url : string) (scores : ScoreSet) (scan_data : pyval).

Record IndexCall : Type := {
  fetched : list string;
  page : Page
}.

(** Lines 768-770 *)
Definition ensure_page_size (scan_data : pyval) : Res pyval :=
  let* performance := Py.get scan_data "performance" (PDict ∅) in
  match scan_data, performance with
  | PDict d, PDict perf =>
      match perf !! "page_size_kb" with
      | Some _ => ret scan_data
      | None =>
          let* sec := Py.item d "performance" in
          let* sec := match sec with PDict x => ret x | _ => raise TypeError end in
          ret (PDict (<["performance" := PDict (<["page_size_kb" := PFloat 0.0]> sec)]> d))
      end
  | _, PStr s => if Str.has_substring "page_size_kb" s then ret scan_data else raise TypeError
  | _, PList l =>
      if existsb (fun v => match v with PStr k => String.eqb k "page_size_kb" | _ => false end) l
      then ret scan_data else raise TypeError
  | _, _ => raise TypeError
  end.

(** The scan result always has its [data] key, so the check of line 760
    passes; the session and chart data are built from the values the
    results page carries. *)
Definition index_post (w : Env) (form_url : string) : IndexCall :=
  let url := Str.strip form_url in
  if Str.is_empty url
  then {| fetched := []; page := IndexPage (Some "Please enter a URL") |}
  else
    match validate_url url with
    | inl e => {| fetched := []; page := IndexPage (Some (exn_str e)) |}
    | inr validated_url =>
        let call := scan_website w validated_url in
        let outcome :=
          let* scan_results := scan_returned call in
          let* scan_data := ensure_defaults (PDict (data scan_results)) in
          let* scan_data := ensure_page_size scan_data in
          let scored := auto_score_website w scan_data None in
          let* scores := returned scored in
          let* df := create_results_dataframe scores validated_url in
          ret (ResultsPage validated_url scores (record_after scored)) in
        {| fetched := requests_sent call;
           page := match outcome with
                   | inr p => p
                   | inl e => IndexPage (Some (exn_str e))
                   end |}
    end.

(** ** Vocabulary of the statements *)

(** [d[section][key]], when both exist. *)
Definition field (d : gmap string pyval) (section key : string) : option pyval :=
  match d !! section with
  | Some (PDict sec) => sec !! key
  | _ => None
  end.

(** A step that asks nothing of the transport. *)
Definition keeps_requests {A} (m : Scan A) : Prop :=
  forall st, requested (m st).1 = requested st.

(** A step that sends exactly one request, for [url]. *)
Definition sends_request {A} (url : string) (m : Scan A) : Prop :=
  forall st, requested (m st).1 = (requested st ++ [url])%list.

(** What a scan asks of the transport, said through [validate_url] alone. *)
Definition urls_to_request (url : string) : list string :=
  match validate_url url with
  | inr validated_url => [validated_url]
  | inl _ => []
  end.

(** A transport that times out on every request. *)
Definition timeout_env : Env :=
  {| now_iso := "2024-01-01T00:00:00";
     time_start := 100;
     time_end := 120.5;
     session_get := fun _ => inl (RequestException "Read timed out. (read timeout=20)");
     text_words := fun _ => None |}.

(** A record whose load time is a string. *)
Definition string_load_time_record : pyval :=
  Py.dict [("basic", Py.dict [("load_time", PStr "fast")])].

(** Every score of a score set lies in 1..5. *)
Definition scores_in_range (scores : ScoreSet) : Prop :=
  Forall (fun kv => 1 <= snd kv <= 5) scores.

(** The category names a scorer call returns, in order. *)
Definition scored_categories : list string :=
  ["Performance & Speed"; "Security & Compliance"; "SEO & Visibility";
   "Mobile Responsiveness"; "First Impressions & Branding"; "Content Quality";
   "Accessibility"].

(** The loops of the sanitizer and of the scorer's internal pass all have
    one shape: for each listed key in turn, store at that key a value
    computed from the key's parameter and from what the map holds there. *)
Definition update_all {V P : Type} (f : string -> P -> option V -> V)
    (m : gmap string V) (l : list (string * P)) : gmap string V :=
  foldl (fun m kp => <[kp.1 := f kp.1 kp.2 (m !! kp.1)]> m) m l.

(** What the sanitizer leaves in a field whose default is [val]. *)
Definition fixed_value (key : string) (val : pyval) (current : option pyval) : pyval :=
  match current with
  | Some v => if Py.isinstance_type_of v val then v else val
  | None => val
  end.

(** What the sanitizer leaves in a section that was a dict or missing. *)
Definition fixed_section (section : string) (fields : list (string * pyval))
    (current : option pyval) : pyval :=
  PDict (update_all fixed_value
           (match current with Some (PDict sec) => sec | _ => ∅ end) fields).

Definition sanitized (d : gmap string pyval) : gmap string pyval :=
  update_all fixed_section d sanitizer_defaults.

Definition dict_or_missing (current : option pyval) : bool :=
  match current with
  | Some (PDict _) | None => true
  | Some _ => false
  end.

(** Each of the six sections of the record is a dict or is missing. *)
Definition sections_are_dicts (d : gmap string pyval) : bool :=
  forallb (fun section => dict_or_missing (d !! section)) (sanitizer_defaults.*1).

(** A malformed record: two sections missing, wrong-typed fields. *)
Definition malformed_record : gmap string pyval :=
  list_to_map
    [("basic", Py.dict [("load_time", PInt 3)]);
     ("performance", Py.dict [("page_size_kb", PStr "big"); ("requests", PNone)]);
     ("meta", Py.dict [("viewport", PInt 1); ("title", PStr "Home")]);
     ("resources", Py.dict [("stylesheets", PBool true); ("images", PInt 4)]);
     ("accessibility", Py.dict [("alt_text_images", PBool true)])].

(** What the scorer's internal pass leaves at a key whose default is
    [default_value]. *)
Definition filled_value (key : string) (default_value : pyval) (current : option pyval)
  : pyval :=
  if String.eqb key "page_size_kb" then
    if Py.is_int_or_float (default PNone current) then default PNone current
    else default_value
  else default default_value current.

(** What it leaves in a section. *)
Definition filled_section (section : string) (defaults : list (string * pyval))
    (current : option pyval) : pyval :=
  match current with
  | Some (PDict sec) => PDict (update_all filled_value sec defaults)
  | Some v => v
  | None => PDict (update_all filled_value ∅ defaults)
  end.

(** The key needs no filling: it is present, and [page_size_kb] is a number. *)
Definition key_filled (key : string) (current : option pyval) : bool :=
  if String.eqb key "page_size_kb" then Py.is_int_or_float (default PNone current)
  else match current with Some _ => true | None => false end.

Definition section_filled (defaults : list (string * pyval)) (current : option pyval)
  : bool :=
  match current with
  | Some (PDict sec) => forallb (fun kd => key_filled kd.1 (sec !! kd.1)) defaults
  | Some _ => match defaults with [] => true | _ :: _ => false end
  | None => false
  end.

(** The record has the six sections, and its [basic] and [performance]
    sections are dicts that hold [load_time], [requests], [dom_depth] and a
    numeric [page_size_kb]. *)
Definition complete_record (d : gmap string pyval) : bool :=
  forallb (fun sd => section_filled sd.2 (d !! sd.1)) required_sections.


(** The record types the scorer computes on without raising. *)
Definition numeric (current : option pyval) : bool :=
  match current with
  | Some v => match Py.as_num v with Some _ => true | None => false end
  | None => false
  end.

Definition numeric_or_missing (current : option pyval) : bool :=
  match current with
  | Some _ => numeric current
  | None => true
  end.

Definition text_or_missing (current : option pyval) : bool :=
  match current with
  | Some (PStr _) | None => true
  | Some _ => false
  end.

(** The image count is an int, and when it is positive the count of images
    with alt text is an int between 0 and it. *)
Definition counts_ok (images alt_images : option pyval) : bool :=
  match images with
  | None => true
  | Some v =>
      match Py.as_num v with
      | Some (Py.NInt n) =>
          (n <=? 0) ||
          match alt_images with
          | None => true
          | Some a =>
              match Py.as_num a with
              | Some (Py.NInt k) => (0 <=? k) && (k <=? n)
              | _ => false
              end
          end
      | _ => false
      end
  end.

(** A complete record whose sections are dicts and whose fields, as far as
    the scorer computes with them, have the types of the data model. *)
Definition scorable_record (d : gmap string pyval) : bool :=
  complete_record d &&
  match d !! "basic", d !! "performance", d !! "security",
        d !! "meta", d !! "accessibility", d !! "resources" with
  | Some (PDict basic), Some (PDict perf), Some (PDict _),
    Some (PDict meta), Some (PDict accessibility), Some (PDict resources) =>
      numeric (basic !! "load_time")
      && numeric (perf !! "page_size_kb")
      && numeric (perf !! "requests")
      && numeric (perf !! "dom_depth")
      && text_or_missing (meta !! "title")
      && text_or_missing (meta !! "description")
      && numeric_or_missing (resources !! "stylesheets")
      && numeric_or_missing (accessibility !! "aria_attributes")
      && counts_ok (resources !! "images") (accessibility !! "alt_text_images")
  | _, _, _, _, _, _ => false
  end.

(** The record of the scenario of C8, otherwise as [initialize_results]
    makes it; the description has 100 characters. *)
Definition seo_scenario_record : gmap string pyval :=
  <["meta" :=
      Py.dict [("title", PStr "");
               ("title_length", PInt 0);
               ("description",
                PStr "A description of exactly one hundred characters, written to fall inside the fifty to 160 range .....");
               ("viewport", PBool true);
               ("has_favicon", PBool false);
               ("canonical", PStr "");
               ("og_tags", Py.dict [])]]>
    (initialize_results timeout_env).



(** ** Vocabulary of the further properties *)

(** The characters [html.escape] leaves none of: the two angle brackets
    and the two quotes. *)
Definition html_delimiter (c : ascii) : bool :=
  Ascii.eqb c "<" || Ascii.eqb c ">" || Ascii.eqb c "034" || Ascii.eqb c "'".

(** No character of [s] can open or close a tag or an attribute value. *)
Definition html_safe (s : string) : bool :=
  Str.forallb (fun c => negb (html_delimiter c)) s.

(** [url] as [validate_url] parses it: trimmed, and prefixed with
    [https://] unless it starts with a scheme of the web. *)
Definition normalized_url (url : string) : string :=
  let url := Str.strip url in
  if Str.startswith url "http://" || Str.startswith url "https://"
  then url else "https://" +:+ url.


(** The sections and fields [initialize_results] creates (lines 106-143). *)
Definition record_fields : list (string * list string) :=
  [("basic", ["load_time"; "scan_timestamp"]);
   ("meta", ["title"; "title_length"; "description"; "viewport"; "has_favicon";
             "canonical"; "og_tags"]);
   ("resources", ["images"; "stylesheets"; "scripts"]);
   ("performance", ["page_size_kb"; "requests"; "dom_elements"; "dom_depth"]);
   ("security", ["https"; "hsts"; "content_security_policy"; "x_frame_options"]);
   ("accessibility", ["alt_text_images"; "lang_attribute"; "aria_attributes"])].

Definition has_field (d : gmap string pyval) (section key : string) : bool :=
  match field d section key with
  | Some _ => true
  | None => false
  end.

(** Every field of the data model is there, and [issues] is a list. *)
Definition fully_populated (d : gmap string pyval) : bool :=
  forallb (fun sk => forallb (has_field d sk.1) sk.2) record_fields
  && match d !! "issues" with
     | Some (PList _) => true
     | _ => false
     end.

(** The last entry of the [issues] list. *)
Definition last_issue (d : gmap string pyval) : option pyval :=
  match d !! "issues" with
  | Some (PList l) => last l
  | _ => None
  end.

(** A page as the parser reports it, and a transport that answers every
    request with it (after a redirect to HTTPS). *)
Definition sample_soup : Soup :=
  {| soup_title := Some (Some "Example Domain");
     meta_description := Some "An example page";
     has_viewport := true;
     has_icon := false;
     canonical_href := None;
     n_img_alt := 1;
     html_lang := true;
     n_aria := 0;
     n_img := 2;
     n_stylesheet := 1;
     n_script_src := 3 |}.

Definition sample_response : Response :=
  {| resp_url := "https://example.com/";
     content_length := 1536;
     parsed := inr sample_soup;
     header_hsts := true;
     header_csp := false;
     header_xfo := false |}.

Definition page_env : Env :=
  {| now_iso := "2024-01-01T00:00:00";
     time_start := 100;
     time_end := 100.25;
     session_get := fun _ => inr sample_response;
     text_words := fun _ => None |}.

(** The result of a scan that returned one (and a placeholder for one that
    raised, which no scan does). *)
Definition result_of (c : ScanCall) : ScanResult :=
  match scan_returned c with
  | inr r => r
  | inl _ => {| status := error; message := None; data := ∅ |}
  end.

(** [isinstance(v, dict)] *)
Definition is_dict (v : pyval) : bool :=
  match v with PDict _ => true | _ => false end.

(** The score set of a record as [initialize_results] makes it, but for the
    content score. *)
Definition default_scores (content : Z) : ScoreSet :=
  [("Performance & Speed", 4); ("Security & Compliance", 1);
   ("SEO & Visibility", 1); ("Mobile Responsiveness", 1);
   ("First Impressions & Branding", 2); ("Content Quality", content);
   ("Accessibility", 1)].

(** Every field of the sanitizer's table is in the record and holds an
    instance of the type of its default. *)
Definition well_typed_record (d : gmap string pyval) : Prop :=
  forall section fields key val,
    (section, fields) ∈ sanitizer_defaults -> (key, val) ∈ fields ->
    exists v, field d section key = Some v /\ Py.isinstance_type_of v val = true.

(** The recommendations of a catalog entry, whichever its shape. *)
Definition recommendations (c : Category) : list string :=
  match c with
  | Weighted scores _ => scores
  | Listed scores => scores
  end.

(** A score set whose categories are all in the catalog, with scores on the
    scale 1..5. *)
Definition catalog_scores (scores : ScoreSet) : Prop :=
  Forall (fun kv => is_Some (CATEGORIES !! kv.1) /\ 1 <= kv.2 <= 5) scores.

(** ** Proof steps for code in the error monad *)

(** Take apart a hypothesis saying that a chain of binds returned. *)
Ltac res_inv :=
  repeat match goal with
    | H : bind ?m _ = inr _ |- _ =>
        let a := fresh "a" in
        let Ha := fresh "Ha" in
        destruct m as [?|a] eqn:Ha; [discriminate H|]; cbn [bind] in H
    | H : ret _ = inr _ |- _ => unfold ret in H
    | H : raise _ = inr _ |- _ => discriminate H
    | H : inl _ = inr _ |- _ => discriminate H
    | H : inr _ = inr _ |- _ => injection H as H; try subst
    | H : (if ?c then _ else _) = inr _ |- _ => destruct c eqn:?
    | H : (let '(_, _) := ?p in _) = inr _ |- _ => destruct p
    end.

(** Case analysis on every condition left in the goal. *)
Ltac split_ifs :=
  repeat match goal with
    | |- context [if ?c then _ else _] => destruct c
    end.

(** A threshold chain on a number returns: every comparison is defined. *)
Ltac chain_on_number v :=
  unfold Py.lt, Py.gt, numeric in *;
  destruct (Py.as_num v); [cbn [bind ret]; split_ifs; eauto | discriminate].


(** ** Proof steps for the further properties *)

(** Find the witness of an existential statement about an option by
    evaluating the option. *)
Ltac exists_evaluated o :=
  let v := eval vm_compute in o in
  lazymatch v with
  | Some (PStr ?x) => exists x
  | Some ?x => exists x
  end.

(** Read one field of a well-typed record. *)
Ltac typed_field H section key val :=
  let v := fresh "v" in
  let Hv := fresh "Hv" in
  let Ht := fresh "Ht" in
  destruct (H section (default [] (list_to_map (M := gmap string _) sanitizer_defaults !! section))
              key val)
    as (v & Hv & Ht);
  [vm_compute; set_solver | vm_compute; set_solver |].

(** * Properties *)

(** ** The validator *)

Example validate_bare : validate_url "example.com" = inr "https://example.com".
Proof. reflexivity. Qed.

Example validate_not_a_url :
  validate_url "not a url" = inl (ValueError "Invalid URL: Invalid domain format").
Proof. reflexivity. Qed.

Example validate_empty : validate_url "" = inl EmptyInput.
Proof. reflexivity. Qed.

(** C6, as stated, fails: a string of three spaces is blank after trimming,
    yet it is not rejected by the emptiness check (which runs before the
    trim) but, once trimmed and prefixed, as a malformed URL. *)
Lemma validate_url_whitespace_is_malformed :
  Str.strip "   " = "" /\
  validate_url "   " = inl (ValueError "Invalid URL: Invalid URL structure") /\
  validate_url "   " <> inl EmptyInput.
Proof. split; [reflexivity|]. split; [reflexivity | discriminate]. Qed.

(** C6, amended: every input that is blank after trimming is rejected with
    a [ValueError]; the empty string by the emptiness check, with
    [EmptyInput], and a non-empty blank string as a malformed URL. *)
Theorem validate_url_rejects_blank (url : string) :
  Str.strip url = "" ->
  validate_url url =
    inl (if Str.is_empty url then EmptyInput
         else ValueError "Invalid URL: Invalid URL structure").
Proof.
  intros Hblank. unfold validate_url.
  destruct url as [|c url]; [reflexivity|].
  cbn [Str.is_empty]. rewrite Hblank. reflexivity.
Qed.

Lemma validate_url_rejects_blank_witness :
  Str.strip (String "009" " ") = "" /\
  validate_url (String "009" " ") = inl (ValueError "Invalid URL: Invalid URL structure").
Proof.
  split; [reflexivity|].
  exact (validate_url_rejects_blank (String "009" " ") eq_refl).
Defined.

(** ** The requests a scan sends *)

Lemma keeps_ret {A} (a : A) : keeps_requests (ScanM.ret a).
Proof. intros st. reflexivity. Qed.

Lemma keeps_raise {A} (e : exn) : keeps_requests (@ScanM.raise A e).
Proof. intros st. reflexivity. Qed.

Lemma keeps_lift {A} (r : Res A) : keeps_requests (ScanM.lift r).
Proof. intros st. reflexivity. Qed.

Lemma keeps_set_field section key v : keeps_requests (ScanM.set_field section key v).
Proof.
  intros st. unfold ScanM.set_field.
  destruct (results st !! section) as [[]|]; reflexivity.
Qed.

Lemma keeps_append_issue msg : keeps_requests (ScanM.append_issue msg).
Proof.
  intros st. unfold ScanM.append_issue.
  destruct (results st !! "issues") as [[]|]; reflexivity.
Qed.

Lemma keeps_bind {A B} (m : Scan A) (k : A -> Scan B) :
  keeps_requests m -> (forall a, keeps_requests (k a)) -> keeps_requests (ScanM.bind m k).
Proof.
  intros Hm Hk st. unfold ScanM.bind.
  specialize (Hm st). destruct (m st) as [st' [e|a]]; simpl in *; [exact Hm|].
  rewrite Hk. exact Hm.
Qed.

Lemma keeps_try_except {A} (m : Scan A) (h : exn -> option (Scan A)) :
  keeps_requests m ->
  (forall e handler, h e = Some handler -> keeps_requests handler) ->
  keeps_requests (ScanM.try_except m h).
Proof.
  intros Hm Hh st. unfold ScanM.try_except.
  specialize (Hm st). destruct (m st) as [st' [e|a]]; simpl in *; [|exact Hm].
  destruct (h e) as [handler|] eqn:He; simpl; [|exact Hm].
  rewrite (Hh _ _ He). exact Hm.
Qed.

Lemma keeps_set_fields writes : keeps_requests (ScanM.set_fields writes).
Proof.
  induction writes as [|[[section key] v] rest IH]; simpl.
  - apply keeps_ret.
  - apply keeps_bind; [apply keeps_set_field | intros _; exact IH].
Qed.

Lemma keeps_final_validation : keeps_requests final_validation.
Proof.
  intros st. unfold final_validation.
  destruct (results st !! "performance") as [v|] eqn:E.
  - rewrite E. destruct v; reflexivity.
  - rewrite lookup_insert_eq. reflexivity.
Qed.

Lemma keeps_on_request_error w e handler :
  on_request_error w e = Some handler -> keeps_requests handler.
Proof.
  destruct e; simpl; intros H; inversion H; subst.
  apply keeps_bind; [apply keeps_append_issue|]. intros _.
  apply keeps_bind; [apply keeps_set_field|]. intros _. apply keeps_set_field.
Qed.

Lemma keeps_on_scan_error e : keeps_requests (on_scan_error e).
Proof.
  apply keeps_bind; [apply keeps_append_issue | intros _; apply keeps_set_field].
Qed.

Lemma sends_bind {A B} url (m : Scan A) (k : A -> Scan B) :
  sends_request url m -> (forall a, keeps_requests (k a)) ->
  sends_request url (ScanM.bind m k).
Proof.
  intros Hm Hk st. unfold ScanM.bind.
  specialize (Hm st). destruct (m st) as [st' [e|a]]; simpl in *; [exact Hm|].
  rewrite Hk. exact Hm.
Qed.

Lemma sends_try_except {A} url (m : Scan A) (h : exn -> option (Scan A)) :
  sends_request url m ->
  (forall e handler, h e = Some handler -> keeps_requests handler) ->
  sends_request url (ScanM.try_except m h).
Proof.
  intros Hm Hh st. unfold ScanM.try_except.
  specialize (Hm st). destruct (m st) as [st' [e|a]]; simpl in *; [|exact Hm].
  destruct (h e) as [handler|] eqn:He; simpl; [|exact Hm].
  rewrite (Hh _ _ He). exact Hm.
Qed.

Lemma sends_fetch_and_extract w url : sends_request url (fetch_and_extract w url).
Proof.
  unfold fetch_and_extract.
  apply sends_bind; [intros st; reflexivity|]. intros response.
  apply keeps_bind; [apply keeps_set_field|]. intros _.
  apply keeps_bind; [apply keeps_lift|]. intros size.
  apply keeps_bind; [apply keeps_set_field|]. intros _.
  apply keeps_bind; [apply keeps_set_field|]. intros _.
  apply keeps_try_except.
  - destruct (parsed response); [apply keeps_raise | apply keeps_set_fields].
  - intros e handler H. inversion H. apply keeps_append_issue.
Qed.

Lemma scan_body_requests w url st :
  requested (scan_body w url st).1 = (requested st ++ urls_to_request url)%list.
Proof.
  unfold scan_body, urls_to_request, ScanM.bind at 1, ScanM.lift.
  destruct (validate_url url) as [e|v]; simpl.
  - symmetry. apply app_nil_r.
  - pose proof (sends_try_except v _ _ (sends_fetch_and_extract w v)
                  (keeps_on_request_error w)) as Hsend.
    unfold ScanM.bind. specialize (Hsend st).
    destruct (ScanM.try_except _ _ st) as [st' [e|[]]]; simpl in *; [exact Hsend|].
    rewrite keeps_final_validation. exact Hsend.
Qed.

Lemma initial_results_checked w :
  exists results0, require_sections (initialize_results w) required_keys = inr results0.
Proof.
  destruct (require_sections (initialize_results w) required_keys) as [e|r] eqn:E.
  - vm_compute in E. discriminate E.
  - eauto.
Qed.

Lemma scan_website_requests w url :
  requests_sent (scan_website w url) = urls_to_request url.
Proof.
  unfold scan_website.
  destruct (initial_results_checked w) as [results0 ->].
  pose proof (scan_body_requests w url {| results := results0; requested := [] |}) as Hb.
  destruct (scan_body w url _) as [st [e|[]]]; simpl in *; [|exact Hb].
  pose proof (keeps_on_scan_error e st) as Hk.
  destruct (on_scan_error e st) as [st' [e'|[]]]; simpl in *; congruence.
Qed.

Lemma index_post_requests w form_url :
  fetched (index_post w form_url) =
    match validate_url (Str.strip form_url) with
    | inr validated_url => urls_to_request validated_url
    | inl _ => []
    end.
Proof.
  unfold index_post.
  destruct (Str.strip form_url) as [|c s] eqn:E; [reflexivity|].
  cbn [Str.is_empty].
  destruct (validate_url (String c s)) as [e|v]; [reflexivity|].
  simpl. apply scan_website_requests.
Qed.

(** C10: [validate_url] is not idempotent.  On a valid URL with an
    ampersand the second application escapes the ampersand of the first;
    and since [index] validates and [scan_website] validates again, the URL
    the transport is asked for is the twice-escaped one, whatever the
    transport answers. *)
Theorem validate_url_not_idempotent :
  let u := "https://example.com/?a=1&b=2" in
  let v := "https://example.com/?a=1&amp;b=2" in
  let v' := "https://example.com/?a=1&amp;amp;b=2" in
  validate_url u = inr v /\
  validate_url v = inr v' /\
  v' <> v /\
  (forall w, fetched (index_post w u) = [v']) /\
  v' <> u.
Proof.
  cbv zeta. split; [reflexivity|]. split; [reflexivity|].
  split; [discriminate|]. split; [|discriminate].
  intros w. rewrite index_post_requests. reflexivity.
Qed.

(** ** Fetch failure *)

(** C3: when the URL passes validation and the request raises a
    [RequestException], the scan returns with status [success]; the page
    size is 0.0, the load time is the time elapsed, and the issues list
    holds the failure's message. *)
Theorem scan_website_fetch_failure w url validated_url msg :
  validate_url url = inr validated_url ->
  session_get w validated_url = inl (RequestException msg) ->
  exists r,
    scan_returned (scan_website w url) = inr r /\
    status r = success /\
    field (data r) "performance" "page_size_kb" = Some (PFloat 0.0) /\
    field (data r) "basic" "load_time" = Some (PFloat (elapsed w)) /\
    data r !! "issues" = Some (PList [PStr ("Request failed: " +:+ msg)]).
Proof.
  intros Hvalid Hget.
  unfold scan_website, scan_body, fetch_and_extract.
  unfold ScanM.bind at 1 2 3. unfold ScanM.lift. rewrite Hvalid.
  unfold ScanM.try_except at 1. unfold ScanM.bind at 1. unfold ScanM.fetch.
  rewrite Hget.
  vm_compute. eexists. repeat split; reflexivity.
Qed.

Lemma scan_website_fetch_failure_witness :
  exists r,
    scan_returned (scan_website timeout_env "example.com") = inr r /\
    status r = success /\
    field (data r) "performance" "page_size_kb" = Some (PFloat 0.0) /\
    field (data r) "basic" "load_time" = Some (PFloat (elapsed timeout_env)) /\
    data r !! "issues" =
      Some (PList [PStr "Request failed: Read timed out. (read timeout=20)"]).
Proof.
  exact (scan_website_fetch_failure timeout_env "example.com" "https://example.com"
           "Read timed out. (read timeout=20)" eq_refl eq_refl).
Defined.

(** ** The scorer *)

Lemma bind_inr {A B} (m : Res A) (k : A -> Res B) (b : B) :
  bind m k = inr b -> exists a, m = inr a /\ k a = inr b.
Proof. destruct m as [e|a]; simpl; [discriminate | eauto]. Qed.

Lemma performance_score_range basic perf s :
  performance_score basic perf = inr s -> 1 <= s <= 5.
Proof. unfold performance_score. intros H. res_inv. lia. Qed.

Lemma security_score_range security s :
  security_score security = inr s -> 1 <= s <= 5.
Proof.
  unfold security_score. intros H. cbv zeta in H. res_inv. split_ifs; lia.
Qed.

Lemma seo_score_range meta s title description :
  seo_score meta = inr (s, title, description) -> 1 <= s <= 5.
Proof.
  unfold seo_score. intros H. cbv zeta in H. res_inv; split_ifs; lia.
Qed.

Lemma mobile_score_range meta resources s :
  mobile_score meta resources = inr s -> 1 <= s <= 5.
Proof.
  unfold mobile_score. intros H. cbv zeta in H. res_inv; split_ifs; lia.
Qed.

Lemma first_impressions_score_range meta title description s :
  first_impressions_score meta title description = inr s -> 1 <= s <= 5.
Proof.
  unfold first_impressions_score. intros H. cbv zeta in H. res_inv; split_ifs; lia.
Qed.

Lemma content_quality_score_range w response_text :
  1 <= content_quality_score w response_text <= 5.
Proof. unfold content_quality_score. lia. Qed.

Lemma accessibility_score_range resources accessibility s :
  accessibility_score resources accessibility = inr s -> 1 <= s <= 5.
Proof.
  unfold accessibility_score. intros H. cbv zeta in H. res_inv; split_ifs; lia.
Qed.

(** Whenever the scoring proper returns, it returns the seven categories of
    [scored_categories], each with a score in 1..5. *)
Lemma compute_scores_shape w d response_text scores :
  compute_scores w d response_text = inr scores ->
  map fst scores = scored_categories /\ scores_in_range scores.
Proof.
  unfold compute_scores. intros H. res_inv.
  split; [reflexivity|].
  repeat constructor; simpl;
    first [ apply content_quality_score_range
          | eapply performance_score_range; eassumption
          | eapply security_score_range; eassumption
          | eapply seo_score_range; eassumption
          | eapply mobile_score_range; eassumption
          | eapply first_impressions_score_range; eassumption
          | eapply accessibility_score_range; eassumption ].
Qed.

Lemma auto_score_website_shape w analysis_data response_text scores :
  returned (auto_score_website w analysis_data response_text) = inr scores ->
  map fst scores = scored_categories /\ scores_in_range scores.
Proof.
  unfold auto_score_website. intros H.
  destruct analysis_data;
    destruct (fill_sections _ required_sections) as [[d' log] r];
    simpl in H; res_inv; eauto using compute_scores_shape.
Qed.

(** ** The catalog *)

Lemma catalog_has_eight_categories : size CATEGORIES = 8%nat.
Proof. reflexivity. Qed.

Lemma content_quality_not_in_catalog : CATEGORIES !! "Content Quality" = None.
Proof. reflexivity. Qed.

(** The five categories scored before [Content Quality] have their five
    recommendations in the catalog. *)
Lemma recommendation_defined category score :
  In category ["Performance & Speed"; "Security & Compliance"; "SEO & Visibility";
               "Mobile Responsiveness"; "First Impressions & Branding"] ->
  1 <= score <= 5 ->
  exists text, recommendation_for category score = inr text.
Proof.
  intros Hc Hs.
  assert (score = 1 \/ score = 2 \/ score = 3 \/ score = 4 \/ score = 5) as Hcases by lia.
  simpl in Hc.
  repeat match goal with
         | H : _ \/ _ |- _ => destruct H as [<-|H]
         | H : False |- _ => destruct H
         end;
    repeat match goal with
           | H : _ \/ _ |- _ => destruct H as [->|H]
           | H : _ = _ |- _ => subst score
           end;
    vm_compute; eauto.
Qed.

(** Building the report rows from a score set the scorer returned raises
    [KeyError] at [Content Quality]: the five categories before it are
    found, it is not. *)
Lemma create_results_dataframe_raises w analysis_data response_text scores url :
  returned (auto_score_website w analysis_data response_text) = inr scores ->
  create_results_dataframe scores url = inl (KeyError "Content Quality").
Proof.
  intros H. apply auto_score_website_shape in H as [Hkeys Hrange].
  unfold create_results_dataframe, scored_categories in *.
  do 7 (destruct scores as [|[? ?] scores]; [discriminate Hkeys|]).
  destruct scores; [|discriminate Hkeys].
  injection Hkeys as -> -> -> -> -> -> ->.
  unfold scores_in_range in Hrange.
  repeat match goal with
         | H : Forall _ (_ :: _) |- _ => apply Forall_cons_1 in H as [? H]
         end.
  simpl in *. cbn [dataframe_rows].
  repeat match goal with
         | |- context [recommendation_for ?c ?z] =>
             lazymatch c with
             | "Content Quality" => fail
             | _ =>
                 let Hx := fresh in
                 destruct (recommendation_defined c z) as [? Hx];
                 [simpl; tauto | assumption | rewrite Hx; cbn [bind]]
             end
         end.
  reflexivity.
Qed.

(** C1, on the code: whenever the scorer returns, its score set holds the
    category [Content Quality], which the catalog [CATEGORIES] does not
    have; building the report rows from that score set then raises
    [KeyError] on it. *)
Theorem content_quality_outside_catalog w analysis_data response_text scores :
  returned (auto_score_website w analysis_data response_text) = inr scores ->
  In "Content Quality" (map fst scores) /\
  CATEGORIES !! "Content Quality" = None /\
  forall url, create_results_dataframe scores url = inl (KeyError "Content Quality").
Proof.
  intros H. split.
  - apply auto_score_website_shape in H as [-> _]. simpl. tauto.
  - split; [apply content_quality_not_in_catalog|].
    intros url. by eapply create_results_dataframe_raises.
Qed.

Lemma content_quality_outside_catalog_witness :
  In "Content Quality"
     (map fst [("Performance & Speed", 1); ("Security & Compliance", 1);
               ("SEO & Visibility", 1); ("Mobile Responsiveness", 1);
               ("First Impressions & Branding", 2); ("Content Quality", 3);
               ("Accessibility", 1)]) /\
  CATEGORIES !! "Content Quality" = None /\
  forall url,
    create_results_dataframe
      [("Performance & Speed", 1); ("Security & Compliance", 1);
       ("SEO & Visibility", 1); ("Mobile Responsiveness", 1);
       ("First Impressions & Branding", 2); ("Content Quality", 3);
       ("Accessibility", 1)] url = inl (KeyError "Content Quality").
Proof.
  exact (content_quality_outside_catalog timeout_env
           (PDict (initialize_results timeout_env)) None _ eq_refl).
Defined.

(** C2, on the code: a record whose [basic.load_time] is a string makes the
    scorer raise [TypeError] at the first threshold comparison; the [setdefault]
    of the internal pass only fills in a missing load time. *)
Theorem auto_score_website_raises_on_string_load_time w response_text :
  returned (auto_score_website w string_load_time_record response_text) = inl TypeError.
Proof. reflexivity. Qed.

(** What does hold of C2: whenever the scorer returns, every score is an
    integer in 1..5. *)
Lemma auto_score_website_in_range w analysis_data response_text scores :
  returned (auto_score_website w analysis_data response_text) = inr scores ->
  scores_in_range scores.
Proof. intros H. apply (auto_score_website_shape _ _ _ _ H). Qed.

(** ** Threshold boundaries *)

Example load_time_tie : load_time_points (PFloat 1.5) = inr 3.
Proof. reflexivity. Qed.

Example page_size_tie : page_size_points (PInt 300) = inr 1.
Proof. reflexivity. Qed.

Example page_size_tie_float : page_size_points (PFloat 300) = inr 1.
Proof. reflexivity. Qed.

Example load_time_just_below : load_time_points (PFloat 1.4999999999999998) = inr 4.
Proof. reflexivity. Qed.

(** C5: a load time of exactly 1.5 adds 3 to the performance accumulator,
    and a page size of exactly 300 (as an int or as a float) adds 1,
    whatever the other three readings add. *)
Theorem threshold_ties_take_lower_bracket
    (load_time page_size requests dom_depth : pyval) (a b c : Z) :
  requests_points requests = inr b ->
  dom_depth_points dom_depth = inr c ->
  (page_size_points page_size = inr a ->
   perf_accumulator (PFloat 1.5) page_size requests dom_depth = inr (3 + a + b + c)) /\
  (load_time_points load_time = inr a ->
   perf_accumulator load_time (PInt 300) requests dom_depth = inr (a + 1 + b + c)) /\
  (load_time_points load_time = inr a ->
   perf_accumulator load_time (PFloat 300) requests dom_depth = inr (a + 1 + b + c)).
Proof.
  intros Hb Hc. unfold perf_accumulator.
  repeat split; intros Ha; rewrite ?Ha, ?Hb, ?Hc;
    change (load_time_points (PFloat 1.5)) with (@inr exn Z 3);
    change (page_size_points (PInt 300)) with (@inr exn Z 1);
    change (page_size_points (PFloat 300)) with (@inr exn Z 1);
    rewrite ?Ha, ?Hb, ?Hc; reflexivity.
Qed.

Lemma threshold_ties_take_lower_bracket_witness :
  perf_accumulator (PFloat 1.5) (PFloat 120.25) (PInt 0) (PInt 0) = inr (3 + 2 + 2 + 1) /\
  perf_accumulator (PFloat 9.75) (PInt 300) (PInt 0) (PInt 0) = inr (0 + 1 + 2 + 1).
Proof.
  split.
  - exact (proj1 (threshold_ties_take_lower_bracket
                    (PFloat 1.5) (PFloat 120.25) (PInt 0) (PInt 0) 2 2 1 eq_refl eq_refl)
                 eq_refl).
  - exact (proj1 (proj2 (threshold_ties_take_lower_bracket
                    (PFloat 9.75) (PInt 300) (PInt 0) (PInt 0) 0 2 1 eq_refl eq_refl))
                 eq_refl).
Defined.

(** ** Keyed update loops *)

Section UpdateAll.
Context {V P : Type} (f : string -> P -> option V -> V).

Lemma update_all_cons (m : gmap string V) k p l :
  update_all f m ((k, p) :: l) = update_all f (<[k := f k p (m !! k)]> m) l.
Proof. reflexivity. Qed.

Lemma update_all_lookup_notin l (m : gmap string V) k :
  k ∉ l.*1 -> update_all f m l !! k = m !! k.
Proof.
  revert m. induction l as [|[k' p] l IH]; intros m Hk; [done|].
  rewrite fmap_cons, not_elem_of_cons in Hk. destruct Hk as [Hne Hk].
  rewrite update_all_cons, IH by done. by rewrite lookup_insert_ne.
Qed.

Lemma update_all_lookup_in l (m : gmap string V) k p :
  NoDup l.*1 -> (k, p) ∈ l -> update_all f m l !! k = Some (f k p (m !! k)).
Proof.
  revert m. induction l as [|[k' p'] l IH]; intros m Hnd Hin.
  - by apply elem_of_nil in Hin.
  - rewrite fmap_cons in Hnd. apply NoDup_cons in Hnd as [Hk' Hnd].
    rewrite update_all_cons.
    apply elem_of_cons in Hin as [Heq|Hin].
    + injection Heq as -> ->.
      rewrite update_all_lookup_notin by done. by rewrite lookup_insert_eq.
    + rewrite IH by done.
      assert (k ≠ k') as Hne.
      { intros ->. apply Hk'. apply list_elem_of_fmap. by exists (k', p). }
      by rewrite lookup_insert_ne.
Qed.

(** A second pass changes nothing when each step is idempotent on what it
    stores. *)
Lemma update_all_idem l (m : gmap string V) :
  NoDup l.*1 ->
  (forall k p o, (k, p) ∈ l -> f k p (Some (f k p o)) = f k p o) ->
  update_all f (update_all f m l) l = update_all f m l.
Proof.
  intros Hnd Hf. apply map_eq. intros k.
  destruct (decide (k ∈ l.*1)) as [Hin|Hnotin].
  - apply list_elem_of_fmap in Hin as [[k' p] [-> Hin]]. simpl.
    rewrite !(update_all_lookup_in l _ k' p) by done.
    f_equal. eauto.
  - by rewrite !update_all_lookup_notin.
Qed.

(** A pass over entries that are fixed already changes nothing. *)
Lemma update_all_id l (m : gmap string V) :
  (forall k p, (k, p) ∈ l -> exists v, m !! k = Some v /\ f k p (Some v) = v) ->
  update_all f m l = m.
Proof.
  revert m. induction l as [|[k p] l IH]; intros m H; [done|].
  rewrite update_all_cons.
  destruct (H k p) as (v & Hv & Hfix); [left|].
  rewrite Hv, Hfix, insert_id by done.
  apply IH. intros k' p' Hin. apply H. by right.
Qed.

End UpdateAll.

(** ** The sanitizer *)

Lemma fix_field_spec sec key val :
  fix_field sec key val = <[key := fixed_value key val (sec !! key)]> sec.
Proof.
  unfold fix_field, fixed_value.
  destruct (sec !! key) as [v|] eqn:E; [|done].
  destruct (Py.isinstance_type_of v val); [|done].
  by rewrite insert_id.
Qed.

Lemma fix_fields_spec sec fields :
  fix_fields sec fields = update_all fixed_value sec fields.
Proof.
  unfold fix_fields, update_all. revert sec.
  induction fields as [|[key val] fields IH]; intros sec; [done|].
  simpl. rewrite fix_field_spec. apply IH.
Qed.

Lemma fix_section_spec d section fields :
  dict_or_missing (d !! section) = true ->
  fix_section d section fields =
    inr (<[section := fixed_section section fields (d !! section)]> d).
Proof.
  unfold fix_section, fixed_section, dict_or_missing.
  destruct (d !! section) as [[]|]; try discriminate; intros _; simpl;
    by rewrite fix_fields_spec.
Qed.

Lemma fix_sections_spec defaults d :
  Forall (fun section => dict_or_missing (d !! section) = true) defaults.*1 ->
  fix_sections d defaults = inr (update_all fixed_section d defaults).
Proof.
  revert d. induction defaults as [|[section fields] defaults IH]; intros d Hd; [done|].
  rewrite fmap_cons in Hd. apply Forall_cons_1 in Hd as [Hsec Hd].
  rewrite update_all_cons. cbn [fix_sections].
  rewrite fix_section_spec by done. cbn [bind]. apply IH.
  eapply Forall_impl; [exact Hd|]. intros section' Hs; simpl in *.
  destruct (decide (section = section')) as [<-|Hne].
  - by rewrite lookup_insert_eq.
  - by rewrite lookup_insert_ne.
Qed.

Lemma sections_are_dicts_Forall d :
  sections_are_dicts d = true <->
  Forall (fun section => dict_or_missing (d !! section) = true) sanitizer_defaults.*1.
Proof.
  unfold sections_are_dicts. rewrite forallb_forall, Forall_forall.
  split; intros H x Hx; apply H; by apply list_elem_of_In.
Qed.

(** On a record whose sections are dicts (or missing) the sanitizer
    returns, and what it returns is [sanitized]. *)
Lemma ensure_defaults_spec d :
  sections_are_dicts d = true -> ensure_defaults (PDict d) = inr (PDict (sanitized d)).
Proof.
  intros H. apply sections_are_dicts_Forall in H.
  unfold ensure_defaults. by rewrite fix_sections_spec.
Qed.

Lemma isinstance_of_own_type val : Py.isinstance_type_of val val = true.
Proof. by destruct val. Qed.

Lemma fixed_value_idem key val current :
  fixed_value key val (Some (fixed_value key val current)) = fixed_value key val current.
Proof.
  unfold fixed_value. destruct current as [v|].
  - destruct (Py.isinstance_type_of v val) eqn:E.
    + by rewrite E.
    + by rewrite isinstance_of_own_type.
  - by rewrite isinstance_of_own_type.
Qed.

Lemma fixed_section_idem section fields current :
  NoDup fields.*1 ->
  fixed_section section fields (Some (fixed_section section fields current)) =
    fixed_section section fields current.
Proof.
  intros Hnd. unfold fixed_section at 1 3. f_equal. unfold fixed_section.
  apply update_all_idem; [done|]. intros. apply fixed_value_idem.
Qed.

Lemma sanitizer_sections_distinct : NoDup sanitizer_defaults.*1.
Proof. apply (bool_decide_unpack _). by vm_compute. Qed.

Lemma sanitizer_fields_distinct section fields :
  (section, fields) ∈ sanitizer_defaults -> NoDup fields.*1.
Proof.
  intros Hin. unfold sanitizer_defaults in Hin.
  repeat (apply elem_of_cons in Hin as [Heq|Hin];
          [injection Heq as -> ->; apply (bool_decide_unpack _); by vm_compute|]).
  by apply elem_of_nil in Hin.
Qed.

Lemma sanitized_idem d : sanitized (sanitized d) = sanitized d.
Proof.
  apply update_all_idem; [apply sanitizer_sections_distinct|].
  intros section fields o Hin. apply fixed_section_idem.
  by eapply sanitizer_fields_distinct.
Qed.

Lemma sanitized_sections_are_dicts d : sections_are_dicts (sanitized d) = true.
Proof.
  apply sections_are_dicts_Forall, Forall_forall. intros section Hin.
  apply list_elem_of_fmap in Hin as [[section' fields] [-> Hin]].
  unfold sanitized.
  rewrite (update_all_lookup_in _ _ _ _ fields) by (done || apply sanitizer_sections_distinct).
  done.
Qed.

(** The sanitizer returns only on records whose sections are dicts or
    missing, and then it returns the sanitized record. *)
Lemma fix_sections_returns defaults d d' :
  NoDup defaults.*1 ->
  Forall (fun sf => sf.2 <> []) defaults ->
  fix_sections d defaults = inr d' ->
  Forall (fun section => dict_or_missing (d !! section) = true) defaults.*1.
Proof.
  revert d. induction defaults as [|[section fields] defaults IH]; intros d Hnd Hne H.
  - constructor.
  - rewrite fmap_cons in Hnd. apply NoDup_cons in Hnd as [Hfresh Hnd].
    apply Forall_cons_1 in Hne as [Hfields Hne]. simpl in Hfields.
    cbn [fix_sections] in H. apply bind_inr in H as (d1 & Hsec & Hrest).
    assert (dict_or_missing (d !! section) = true) as Hd.
    { unfold fix_section in Hsec.
      destruct (d !! section) as [v|]; [|done].
      destruct v; simpl in *; try done; by destruct fields as [|[] ?]. }
    rewrite fmap_cons. constructor; [exact Hd|].
    rewrite fix_section_spec in Hsec by done. injection Hsec as <-.
    apply IH in Hrest; [|done..].
    apply Forall_forall. intros section' Hin.
    eapply Forall_forall in Hrest; [|exact Hin]. simpl in Hrest.
    rewrite lookup_insert_ne in Hrest; [done|]. by intros ->.
Qed.

Lemma ensure_defaults_returns r r' :
  ensure_defaults r = inr r' ->
  exists d, r = PDict d /\ sections_are_dicts d = true /\ r' = PDict (sanitized d).
Proof.
  destruct r as [| | | | | |d]; try discriminate. intros H. exists d.
  assert (sections_are_dicts d = true) as Hd.
  { unfold ensure_defaults in H. apply bind_inr in H as (d' & Hfix & _).
    apply sections_are_dicts_Forall.
    eapply fix_sections_returns; [apply sanitizer_sections_distinct | | exact Hfix].
    unfold sanitizer_defaults. repeat constructor; done. }
  rewrite ensure_defaults_spec in H by done. injection H as <-. done.
Qed.

(** C4: the sanitizer is idempotent.  Whenever it returns a record,
    whatever was missing or wrong-typed in its argument, sanitizing that
    record again returns it unchanged. *)
Theorem ensure_defaults_idempotent r r' :
  ensure_defaults r = inr r' -> ensure_defaults r' = inr r'.
Proof.
  intros (d & -> & Hd & ->)%ensure_defaults_returns.
  rewrite ensure_defaults_spec by apply sanitized_sections_are_dicts.
  by rewrite sanitized_idem.
Qed.

Lemma ensure_defaults_idempotent_witness :
  ensure_defaults (PDict (sanitized malformed_record)) =
    inr (PDict (sanitized malformed_record)).
Proof.
  exact (ensure_defaults_idempotent (PDict malformed_record)
           (PDict (sanitized malformed_record)) eq_refl).
Defined.

(** The field-by-field reading of [sanitized]. *)
Lemma sanitized_field d section fields key val :
  (section, fields) ∈ sanitizer_defaults -> (key, val) ∈ fields ->
  dict_or_missing (d !! section) = true ->
  field (sanitized d) section key = Some (fixed_value key val (field d section key)).
Proof.
  intros Hs Hk Hd. unfold field, sanitized.
  rewrite (update_all_lookup_in _ _ _ _ fields) by (done || apply sanitizer_sections_distinct).
  unfold fixed_section.
  rewrite (update_all_lookup_in _ _ _ _ val) by (done || by eapply sanitizer_fields_distinct).
  by destruct (d !! section) as [[]|].
Qed.

Lemma sections_are_dicts_lookup d section fields :
  sections_are_dicts d = true -> (section, fields) ∈ sanitizer_defaults ->
  dict_or_missing (d !! section) = true.
Proof.
  intros Hd Hin. apply sections_are_dicts_Forall in Hd.
  eapply Forall_forall in Hd; [exact Hd|].
  apply list_elem_of_fmap. by exists (section, fields).
Qed.



(** ** The scorer's internal pass over its argument *)

Lemma fill_default_id sec key default_value :
  key_filled key (sec !! key) = true ->
  fill_default sec key default_value = (sec, []).
Proof.
  unfold key_filled, fill_default.
  destruct (String.eqb key "page_size_kb").
  - by intros ->.
  - by destruct (sec !! key).
Qed.

Lemma fill_defaults_id sec defaults :
  forallb (fun kd => key_filled kd.1 (sec !! kd.1)) defaults = true ->
  fill_defaults sec defaults = (sec, []).
Proof.
  induction defaults as [|[key default_value] defaults IH]; [done|].
  simpl. intros [Hkey Hrest]%andb_prop.
  by rewrite fill_default_id, IH.
Qed.

Lemma fill_section_id d section defaults :
  section_filled defaults (d !! section) = true ->
  fill_section d section defaults = (d, [], inr tt).
Proof.
  unfold section_filled, fill_section.
  destruct (d !! section) as [v|] eqn:E; [|done].
  rewrite E. intros H.
  destruct defaults as [|kd defaults]; [done|].
  destruct v; try done.
  by rewrite fill_defaults_id, insert_id.
Qed.

Lemma fill_sections_id d sections :
  forallb (fun sd => section_filled sd.2 (d !! sd.1)) sections = true ->
  fill_sections d sections = (d, [], inr tt).
Proof.
  induction sections as [|[section defaults] sections IH]; [done|].
  simpl. intros [Hsec Hrest]%andb_prop.
  by rewrite fill_section_id, IH.
Qed.

Lemma fill_default_spec sec key default_value :
  (fill_default sec key default_value).1 =
    <[key := filled_value key default_value (sec !! key)]> sec.
Proof.
  unfold fill_default, filled_value.
  destruct (String.eqb key "page_size_kb").
  - destruct (sec !! key) as [v|] eqn:E; simpl; [|done].
    destruct (Py.is_int_or_float v); simpl; [|done]. by rewrite insert_id.
  - destruct (sec !! key) as [v|] eqn:E; simpl; [|done]. by rewrite insert_id.
Qed.

Lemma fill_defaults_spec sec defaults :
  (fill_defaults sec defaults).1 = update_all filled_value sec defaults.
Proof.
  revert sec. induction defaults as [|[key default_value] defaults IH]; intros sec; [done|].
  rewrite update_all_cons, <- IH, <- fill_default_spec. simpl.
  destruct (fill_default sec key default_value) as [sec1 log1]. simpl.
  by destruct (fill_defaults sec1 defaults).
Qed.

(** The state one turn of the outer loop leaves, whether or not it raises. *)
Lemma fill_section_spec d section defaults :
  (fill_section d section defaults).1.1 =
    <[section := filled_section section defaults (d !! section)]> d.
Proof.
  assert (forall sec (d0 : gmap string pyval),
             (let '(sec', log) := fill_defaults sec defaults in
              (<[section := PDict sec']> d0, log, ret tt)).1.1 =
               <[section := PDict (update_all filled_value sec defaults)]> d0) as Hfill.
  { intros sec d0. rewrite <- fill_defaults_spec. by destruct (fill_defaults sec defaults). }
  unfold fill_section, filled_section.
  destruct (d !! section) as [v|] eqn:E.
  - rewrite E. destruct defaults as [|kd defaults].
    + cbn [fst]. destruct v; by rewrite insert_id.
    + destruct v; try (cbn [fst]; by rewrite insert_id). apply Hfill.
  - rewrite lookup_insert_eq. destruct defaults as [|kd defaults]; [done|].
    rewrite Hfill. by rewrite insert_insert_eq.
Qed.

Lemma fill_section_returns d section defaults :
  (fill_section d section defaults).2 = inr tt ->
  defaults = [] \/ dict_or_missing (d !! section) = true.
Proof.
  unfold fill_section. destruct defaults as [|kd defaults]; [by left|]. right.
  destruct (d !! section) as [v|] eqn:E; [|done].
  rewrite E in H. by destruct v.
Qed.

Lemma fill_sections_spec sections d d' log :
  NoDup sections.*1 ->
  fill_sections d sections = (d', log, inr tt) ->
  d' = update_all filled_section d sections /\
  Forall (fun sd => sd.2 = [] \/ dict_or_missing (d !! sd.1) = true) sections.
Proof.
  revert d log. induction sections as [|[section defaults] sections IH];
    intros d log Hnd H.
  - simpl in H. injection H as <- _. by split.
  - rewrite fmap_cons in Hnd. apply NoDup_cons in Hnd as [Hfresh Hnd].
    simpl in H.
    pose proof (fill_section_spec d section defaults) as Hstate.
    pose proof (fill_section_returns d section defaults) as Hret.
    destruct (fill_section d section defaults) as [[d1 log1] [e|[]]]; [done|].
    simpl in Hstate, Hret.
    destruct (fill_sections d1 sections) as [[d2 log2] r] eqn:Hrest.
    injection H as <- _ ->.
    apply IH in Hrest as [-> Hall]; [|done].
    rewrite update_all_cons, <- Hstate. split; [done|].
    constructor; [by apply Hret|].
    apply Forall_forall. intros [section' defaults'] Hin.
    eapply Forall_forall in Hall; [|exact Hin]. simpl in *.
    rewrite Hstate, lookup_insert_ne in Hall; [done|].
    intros ->. apply Hfresh. apply list_elem_of_fmap. by exists (section', defaults').
Qed.

Lemma key_filled_filled_value key default_value current :
  (String.eqb key "page_size_kb" = true -> Py.is_int_or_float default_value = true) ->
  key_filled key (Some (filled_value key default_value current)) = true.
Proof.
  unfold key_filled, filled_value. intros Hnum.
  destruct (String.eqb key "page_size_kb"); [|done]. simpl.
  destruct (Py.is_int_or_float (default PNone current)) eqn:E; [done | by apply Hnum].
Qed.

Lemma section_filled_filled_section section defaults current :
  NoDup defaults.*1 ->
  Forall (fun kd => String.eqb kd.1 "page_size_kb" = true ->
                    Py.is_int_or_float kd.2 = true) defaults ->
  defaults = [] \/ dict_or_missing current = true ->
  section_filled defaults (Some (filled_section section defaults current)) = true.
Proof.
  intros Hnd Hnum Hok.
  assert (forall sec,
             forallb (fun kd => key_filled kd.1 (update_all filled_value sec defaults !! kd.1))
                     defaults = true) as Hkeys.
  { intros sec. apply forallb_forall. intros [key default_value] Hin%list_elem_of_In.
    simpl. rewrite (update_all_lookup_in _ _ _ _ default_value) by done.
    apply key_filled_filled_value.
    apply (proj1 (Forall_forall _ _) Hnum (key, default_value) Hin). }
  unfold filled_section, section_filled.
  destruct current as [v|]; [|apply Hkeys].
  destruct v; try apply Hkeys; destruct Hok as [->|Hok]; done.
Qed.

Lemma required_sections_distinct : NoDup required_sections.*1.
Proof. apply (bool_decide_unpack _). by vm_compute. Qed.

Lemma required_sections_keys section defaults :
  (section, defaults) ∈ required_sections ->
  NoDup defaults.*1 /\
  Forall (fun kd => String.eqb kd.1 "page_size_kb" = true ->
                    Py.is_int_or_float kd.2 = true) defaults.
Proof.
  intros Hin. unfold required_sections in Hin.
  repeat (apply elem_of_cons in Hin as [Heq|Hin];
          [injection Heq as -> ->;
           split; [apply (bool_decide_unpack _); by vm_compute
                  | repeat constructor; simpl; done]|]).
  by apply elem_of_nil in Hin.
Qed.

(** After a pass that raised nothing the record is complete. *)
Lemma fill_sections_complete d d' log :
  fill_sections d required_sections = (d', log, inr tt) -> complete_record d' = true.
Proof.
  intros H. apply fill_sections_spec in H as [-> Hok]; [|apply required_sections_distinct].
  unfold complete_record. apply forallb_forall.
  intros [section defaults] Hin%list_elem_of_In. cbn [fst snd].
  rewrite (update_all_lookup_in _ _ _ _ defaults) by (done || apply required_sections_distinct).
  destruct (required_sections_keys _ _ Hin) as [Hnd Hnum].
  apply section_filled_filled_section; [done..|].
  apply (proj1 (Forall_forall _ _) Hok (section, defaults) Hin).
Qed.


(** The other departure from C7: a record whose page size is not a number
    makes the scorer write a warning to the log. *)
Example auto_score_website_logs :
  logged (auto_score_website timeout_env
            (Py.dict [("performance", Py.dict [("page_size_kb", PStr "big")])]) None)
  = [page_size_warning].
Proof. by vm_compute. Qed.

Lemma auto_score_website_on_complete w (d : gmap string pyval) response_text :
  complete_record d = true ->
  auto_score_website w (PDict d) response_text =
    {| record_after := PDict d; logged := [];
       returned := compute_scores w d response_text |}.
Proof.
  intros Hd. unfold auto_score_website, complete_record in *.
  by rewrite fill_sections_id.
Qed.

(** *** The pass, run to its end *)
















(** X16: a call that returned can be repeated on the record it left: the second
    call returns the same score set and changes nothing. *)
Lemma auto_score_website_repeatable w analysis_data response_text scores :
  returned (auto_score_website w analysis_data response_text) = inr scores ->
  let after := record_after (auto_score_website w analysis_data response_text) in
  returned (auto_score_website w after response_text) = inr scores /\
  record_after (auto_score_website w after response_text) = after.
Proof.
  intros H after. subst after. destruct analysis_data as [| | | | | |d];
    try (split; [exact H | reflexivity]).
  unfold auto_score_website in *.
  destruct (fill_sections d required_sections) as [[d' log] r] eqn:Hfill.
  cbn [returned record_after] in *. destruct r as [e|[]]; [discriminate H|].
  apply fill_sections_complete in Hfill.
  by rewrite fill_sections_id.
Qed.

(** ** Where the scorer returns *)

Lemma gt_numeric v c :
  numeric (Some v) = true -> exists b, Py.gt v c = inr b.
Proof. unfold numeric, Py.gt. destruct (Py.as_num v); [eauto | done]. Qed.

Lemma load_time_points_total v :
  numeric (Some v) = true -> exists p, load_time_points v = inr p.
Proof.
  intros Hv. unfold load_time_points. chain_on_number v.
Qed.

Lemma page_size_points_total v :
  numeric (Some v) = true -> exists p, page_size_points v = inr p.
Proof.
  intros Hv. unfold page_size_points. chain_on_number v.
Qed.

Lemma requests_points_total v :
  numeric (Some v) = true -> exists p, requests_points v = inr p.
Proof.
  intros Hv. unfold requests_points. chain_on_number v.
Qed.

Lemma dom_depth_points_total v :
  numeric (Some v) = true -> exists p, dom_depth_points v = inr p.
Proof.
  intros Hv. unfold dom_depth_points. chain_on_number v.
Qed.

Lemma numeric_lookup (sec : gmap string pyval) key :
  numeric (sec !! key) = true -> exists v, sec !! key = Some v /\ numeric (Some v) = true.
Proof. destruct (sec !! key) as [v|]; [eauto | done]. Qed.

Lemma performance_score_total basic perf :
  numeric (basic !! "load_time") = true ->
  numeric (perf !! "page_size_kb") = true ->
  numeric (perf !! "requests") = true ->
  numeric (perf !! "dom_depth") = true ->
  exists s, performance_score basic perf = inr s.
Proof.
  intros (v1 & E1 & H1)%numeric_lookup (v2 & E2 & H2)%numeric_lookup
         (v3 & E3 & H3)%numeric_lookup (v4 & E4 & H4)%numeric_lookup.
  unfold performance_score, Py.item, perf_accumulator.
  rewrite E1, E2, E3, E4. cbn [bind ret].
  destruct (load_time_points_total v1 H1) as [p1 ->].
  destruct (page_size_points_total v2 H2) as [p2 ->].
  destruct (requests_points_total v3 H3) as [p3 ->].
  destruct (dom_depth_points_total v4 H4) as [p4 ->].
  cbn [bind ret]. eauto.
Qed.

Lemma security_score_total security :
  exists s, security_score (PDict security) = inr s.
Proof. unfold security_score. cbn [Py.get bind ret]. eauto. Qed.

Lemma length_within_text (sec : gmap string pyval) key lo hi :
  text_or_missing (sec !! key) = true ->
  exists b, length_within (default (PStr "") (sec !! key)) lo hi = inr b.
Proof.
  unfold length_within. destruct (sec !! key) as [[]|]; try done; intros _; simpl.
  - destruct (negb (Str.is_empty s)); eauto.
  - eauto.
Qed.

Lemma seo_score_total meta :
  text_or_missing (meta !! "title") = true ->
  text_or_missing (meta !! "description") = true ->
  exists s, seo_score (PDict meta) =
              inr (s, default (PStr "") (meta !! "title"),
                      default (PStr "") (meta !! "description")).
Proof.
  intros Ht Hd. unfold seo_score. cbn [Py.get bind ret].
  destruct (length_within_text meta "title" 30 60 Ht) as [b1 ->].
  destruct (length_within_text meta "description" 50 160 Hd) as [b2 ->].
  cbn [bind ret]. eauto.
Qed.

Lemma gt_numeric_or_missing (sec : gmap string pyval) key c :
  numeric_or_missing (sec !! key) = true ->
  exists b, Py.gt (default (PInt 0) (sec !! key)) c = inr b.
Proof.
  destruct (sec !! key) as [v|] eqn:E; simpl; intros H.
  - by apply gt_numeric.
  - unfold Py.gt. simpl. eauto.
Qed.

Lemma mobile_score_total meta resources :
  numeric_or_missing (resources !! "stylesheets") = true ->
  exists s, mobile_score (PDict meta) (PDict resources) = inr s.
Proof.
  intros H. unfold mobile_score. cbn [Py.get bind ret].
  destruct (gt_numeric_or_missing resources "stylesheets" (Py.NInt 0) H) as [b ->].
  cbn [bind ret]. eauto.
Qed.

Lemma first_impressions_score_total meta title description :
  exists s, first_impressions_score (PDict meta) title description = inr s.
Proof. unfold first_impressions_score. cbn [Py.get bind ret]. eauto. Qed.

Lemma overflow_threshold_large : 2 < Py.overflow_threshold.
Proof. reflexivity. Qed.

(** A quotient of two counts, the smaller over the larger, is a float. *)
Lemma int_true_div_counts k n :
  0 <= k <= n -> 0 < n -> exists x, Py.int_true_div k n = inr x.
Proof.
  intros Hk Hn. unfold Py.int_true_div.
  destruct (Z.eqb_spec n 0) as [->|_]; [lia|].
  pose proof overflow_threshold_large as Hbig.
  destruct (Z.leb_spec (Py.overflow_threshold * Z.abs n) (Z.abs k)) as [Hle|_]; [|eauto].
  exfalso. nia.
Qed.

Lemma accessibility_score_total resources accessibility :
  counts_ok (resources !! "images") (accessibility !! "alt_text_images") = true ->
  numeric_or_missing (accessibility !! "aria_attributes") = true ->
  exists s, accessibility_score (PDict resources) (PDict accessibility) = inr s.
Proof.
  intros Hcounts Haria. unfold accessibility_score. cbn [Py.get bind ret].
  destruct (gt_numeric_or_missing accessibility "aria_attributes" (Py.NInt 0) Haria)
    as [b Hb].
  rewrite Hb.
  assert (exists c,
             Py.gt (default (PInt 0) (resources !! "images")) (Py.NInt 0) = inr c /\
             (c = true ->
              exists x,
                Py.truediv (default (PInt 0) (accessibility !! "alt_text_images"))
                           (default (PInt 0) (resources !! "images")) = inr x))
    as (c & Hc & Hdiv).
  { unfold counts_ok in Hcounts. unfold Py.gt, Py.truediv.
    destruct (resources !! "images") as [v|]; simpl;
      [|eexists; split; [reflexivity | discriminate]].
    destruct (Py.as_num v) as [[n|]|]; try done.
    eexists; split; [reflexivity|]. cbn [Py.num_lt]. intros Hpos%Z.ltb_lt.
    destruct (Z.leb_spec n 0) as [|_]; [lia|]. simpl in Hcounts.
    destruct (accessibility !! "alt_text_images") as [a|]; simpl.
    - destruct (Py.as_num a) as [[k|]|]; try done.
      apply andb_prop in Hcounts as [H0%Z.leb_le Hn%Z.leb_le].
      apply int_true_div_counts; lia.
    - apply int_true_div_counts; lia. }
  rewrite Hc. cbn [bind]. destruct c.
  - destruct (Hdiv eq_refl) as [x ->]. cbn [bind ret]. split_ifs; eauto.
  - cbn [bind ret]. eauto.
Qed.

(** On a scorable record the scoring proper returns. *)
Lemma compute_scores_total w d response_text :
  scorable_record d = true -> exists scores, compute_scores w d response_text = inr scores.
Proof.
  unfold scorable_record. intros [_ H]%andb_prop.
  unfold compute_scores, Py.item.
  destruct (d !! "basic") as [[| | | | | |basic]|]; try discriminate H.
  destruct (d !! "performance") as [[| | | | | |perf]|]; try discriminate H.
  destruct (d !! "security") as [[| | | | | |security]|]; try discriminate H.
  destruct (d !! "meta") as [[| | | | | |meta]|]; try discriminate H.
  destruct (d !! "accessibility") as [[| | | | | |accessibility]|]; try discriminate H.
  destruct (d !! "resources") as [[| | | | | |resources]|]; try discriminate H.
  repeat match type of H with
         | _ && _ = true => let H' := fresh "H" in apply andb_prop in H as [H H']
         end.
  cbn [bind ret section_dict].
  destruct (performance_score_total basic perf) as [s1 ->]; [assumption..|].
  destruct (security_score_total security) as [s2 ->].
  destruct (seo_score_total meta) as [s3 ->]; [assumption..|].
  cbn [bind ret].
  destruct (mobile_score_total meta resources) as [s4 ->]; [assumption|].
  destruct (first_impressions_score_total meta
              (default (PStr "") (meta !! "title"))
              (default (PStr "") (meta !! "description"))) as [s5 ->].
  destruct (accessibility_score_total resources accessibility) as [s6 ->]; [assumption..|].
  cbn [bind ret]. eauto.
Qed.

(** The scorer returns on every scorable record. *)
Lemma auto_score_website_total w d response_text :
  scorable_record d = true ->
  exists scores, returned (auto_score_website w (PDict d) response_text) = inr scores.
Proof.
  intros H. pose proof H as [Hc _]%andb_prop.
  rewrite auto_score_website_on_complete by done.
  by apply compute_scores_total.
Qed.

(** ** The SEO scenario *)

Lemma seo_score_scenario (meta : gmap string pyval) description :
  meta !! "title" = Some (PStr "") ->
  meta !! "description" = Some (PStr description) ->
  String.length description = 100%nat ->
  meta !! "viewport" = Some (PBool true) ->
  meta !! "canonical" = Some (PStr "") ->
  meta !! "og_tags" = Some (PDict ∅) ->
  seo_score (PDict meta) = inr (4, PStr "", PStr description).
Proof.
  intros Ht Hd Hlen Hv Hc Ho. unfold seo_score.
  cbn [Py.get bind ret]. rewrite Ht, Hd, Hv, Hc, Ho.
  cbn [default from_option id]. unfold length_within.
  destruct description as [|c rest]; [discriminate Hlen|].
  cbn [Py.truthy Str.is_empty negb Py.len bind ret]. unfold Str.len.
  rewrite Hlen. reflexivity.
Qed.

(** The internal pass leaves a [meta] section that is there as it is. *)
Lemma fill_sections_keeps_meta d d' log meta :
  fill_sections d required_sections = (d', log, inr tt) ->
  d !! "meta" = Some (PDict meta) -> d' !! "meta" = Some (PDict meta).
Proof.
  intros H Hmeta.
  apply fill_sections_spec in H as [-> _]; [|apply required_sections_distinct].
  rewrite (update_all_lookup_in _ _ _ _ []);
    [| apply required_sections_distinct | unfold required_sections; set_solver].
  by rewrite Hmeta.
Qed.

(** C8: with an empty title, a description of 100 characters, a viewport,
    no canonical URL and no open-graph tags, the SEO score is 4: every
    score set the scorer returns for such a record says so, and the scorer
    does return one when the rest of the record is scorable. *)
Theorem seo_scenario_scores_four w (d : gmap string pyval) response_text description :
  field d "meta" "title" = Some (PStr "") ->
  field d "meta" "description" = Some (PStr description) ->
  String.length description = 100%nat ->
  field d "meta" "viewport" = Some (PBool true) ->
  field d "meta" "canonical" = Some (PStr "") ->
  field d "meta" "og_tags" = Some (PDict ∅) ->
  (forall scores,
      returned (auto_score_website w (PDict d) response_text) = inr scores ->
      score_of scores "SEO & Visibility" = Some 4) /\
  (scorable_record d = true ->
   exists scores,
     returned (auto_score_website w (PDict d) response_text) = inr scores /\
     score_of scores "SEO & Visibility" = Some 4).
Proof.
  unfold field. intros Ht Hd Hlen Hv Hc Ho.
  destruct (d !! "meta") as [[| | | | | |meta]|] eqn:Hmeta; try discriminate Ht.
  pose proof (seo_score_scenario meta description Ht Hd Hlen Hv Hc Ho) as Hseo.
  assert (forall scores,
             returned (auto_score_website w (PDict d) response_text) = inr scores ->
             score_of scores "SEO & Visibility" = Some 4) as Hfour.
  { intros scores H. unfold auto_score_website in H.
    destruct (fill_sections d required_sections) as [[d' log] r] eqn:Hfill.
    cbn [returned] in H. destruct r as [e|[]]; [discriminate H|]. cbn [bind] in H.
    pose proof (fill_sections_keeps_meta _ _ _ _ Hfill Hmeta) as Hmeta'.
    unfold compute_scores, Py.item in H. rewrite Hmeta' in H.
    res_inv.
    match goal with
    | Hs : seo_score (PDict meta) = inr _ |- _ => rewrite Hseo in Hs; injection Hs as <- <- <-
    end.
    reflexivity. }
  split; [exact Hfour|].
  intros Hscorable.
  destruct (auto_score_website_total w d response_text Hscorable) as [scores Hscores].
  exists scores. split; [exact Hscores | by apply Hfour].
Qed.

Lemma seo_scenario_scores_four_witness :
  exists scores,
    returned (auto_score_website timeout_env (PDict seo_scenario_record) None) = inr scores /\
    score_of scores "SEO & Visibility" = Some 4.
Proof.
  exact (proj2 (seo_scenario_scores_four timeout_env seo_scenario_record None
                  "A description of exactly one hundred characters, written to fall inside the fifty to 160 range ....."
                  eq_refl eq_refl eq_refl eq_refl eq_refl eq_refl) eq_refl).
Defined.

(** ** Consequences for the route *)

(** X21: since the report rows cannot be built from any score set the scorer
    returns, a POST to [index] never renders the results page. *)
Lemma index_post_never_renders_results w form_url :
  exists err, page (index_post w form_url) = IndexPage err.
Proof.
  unfold index_post.
  destruct (Str.is_empty (Str.strip form_url)); [eauto|].
  destruct (validate_url (Str.strip form_url)) as [e|validated_url]; [eauto|].
  cbn [page].
  destruct (scan_returned (scan_website w validated_url)) as [e|scan_results];
    [cbn [bind]; eauto|].
  cbn [bind].
  destruct (ensure_defaults (PDict (data scan_results))) as [e|scan_data];
    [cbn [bind]; eauto|].
  cbn [bind].
  destruct (ensure_page_size scan_data) as [e|scan_data']; [cbn [bind]; eauto|].
  cbn [bind].
  destruct (returned (auto_score_website w scan_data' None)) as [e|scores] eqn:Hscores;
    [cbn [bind]; eauto|].
  cbn [bind].
  rewrite (create_results_dataframe_raises _ _ _ _ validated_url Hscores).
  cbn [bind]. eauto.
Qed.

(** A section bound to something other than a dict makes the sanitizer
    raise. *)
Example ensure_defaults_raises_on_non_dict_section :
  ensure_defaults (Py.dict [("basic", PNone)]) = inl TypeError.
Proof. reflexivity. Qed.

(** The second validation can also reject what the first one returned: an
    apostrophe in the host is escaped to an entity with a [#] in it, which
    ends the network location.  The route then reports an invalid URL
    without any request being sent. *)
Example index_post_rejects_escaped_host :
  validate_url "https://a'b.com" = inr "https://a&#x27;b.com" /\
  validate_url "https://a&#x27;b.com" =
    inl (ValueError "Invalid URL: Invalid domain format") /\
  (forall w, fetched (index_post w "https://a'b.com") = []).
Proof.
  split; [reflexivity|]. split; [reflexivity|].
  intros w. rewrite index_post_requests. reflexivity.
Qed.

(** * Further properties *)

(** ** More on the validator *)

Lemma forallb_append p a b :
  Str.forallb p (a +:+ b) = Str.forallb p a && Str.forallb p b.
Proof.
  induction a as [|c a IH]; simpl; [done|].
  rewrite IH. by rewrite andb_assoc.
Qed.

Lemma escape_char_safe c : html_safe (UrlLib.escape_char c) = true.
Proof.
  unfold UrlLib.escape_char, html_safe, html_delimiter.
  destruct (Ascii.eqb c "&") eqn:E1; [reflexivity|].
  destruct (Ascii.eqb c "<") eqn:E2; [reflexivity|].
  destruct (Ascii.eqb c ">") eqn:E3; [reflexivity|].
  destruct (Ascii.eqb c "034") eqn:E4; [reflexivity|].
  destruct (Ascii.eqb c "'") eqn:E5; [reflexivity|].
  simpl. by rewrite E2, E3, E4, E5.
Qed.

Lemma html_escape_safe s : html_safe (UrlLib.html_escape s) = true.
Proof.
  induction s as [|c s IH]; [reflexivity|].
  pose proof (escape_char_safe c) as Hc.
  unfold html_safe in *. simpl. by rewrite forallb_append, IH, Hc.
Qed.

(** What a successful validation returned, and why. *)
Lemma validate_url_inr url v :
  validate_url url = inr v ->
  url <> "" /\
  check_url (normalized_url url) = inr v /\
  v = UrlLib.html_escape (normalized_url url).
Proof.
  unfold validate_url, normalized_url. intros H.
  destruct url as [|c url]; [discriminate H|]. cbn [Str.is_empty] in H.
  split; [done|].
  destruct (check_url _) as [e|v'] eqn:Hcheck; [discriminate H|].
  injection H as ->. split; [done|].
  unfold check_url in Hcheck. res_inv. done.
Qed.

(** X1: a URL that [validate_url] returns holds no angle bracket and no
    quote: it can be put into generated markup as it is. *)
Theorem validate_url_output_is_html_safe url v :
  validate_url url = inr v -> html_safe v = true.
Proof.
  intros (_ & _ & ->)%validate_url_inr. apply html_escape_safe.
Qed.

Lemma validate_url_output_is_html_safe_witness :
  html_safe "https://example.com/?q=&lt;b&gt;&amp;x=&#x27;1&#x27;" = true.
Proof.
  exact (validate_url_output_is_html_safe "example.com/?q=<b>&x='1'" _ eq_refl).
Defined.

Lemma startswith_append p s : Str.startswith (p +:+ s) p = true.
Proof.
  unfold Str.startswith. induction p as [|c p IH]; simpl.
  - by destruct s.
  - by destruct (Ascii.ascii_dec c c).
Qed.

(** A string that starts with [p] is [p] followed by a rest. *)
Lemma startswith_inv p s :
  Str.startswith s p = true -> exists rest, s = p +:+ rest.
Proof.
  unfold Str.startswith. revert s. induction p as [|c p IH]; intros s H.
  - by exists s.
  - destruct s as [|d s]; [discriminate H|]. simpl in H.
    destruct (Ascii.ascii_dec c d) as [<-|]; [|discriminate H].
    destruct (IH s H) as [rest ->]. by exists rest.
Qed.

Lemma normalized_url_scheme url :
  Str.startswith (normalized_url url) "http://"
  || Str.startswith (normalized_url url) "https://" = true.
Proof.
  unfold normalized_url.
  destruct (Str.startswith (Str.strip url) "http://"
            || Str.startswith (Str.strip url) "https://") eqn:E; [exact E|].
  rewrite (startswith_append "https://"). apply orb_true_r.
Qed.

Lemma html_escape_keeps_scheme u :
  Str.startswith u "http://" || Str.startswith u "https://" = true ->
  Str.startswith (UrlLib.html_escape u) "http://"
  || Str.startswith (UrlLib.html_escape u) "https://" = true.
Proof.
  intros [H|H]%orb_prop; apply startswith_inv in H as [rest ->].
  - change (UrlLib.html_escape ("http://" +:+ rest))
      with ("http://" +:+ UrlLib.html_escape rest).
    by rewrite startswith_append.
  - change (UrlLib.html_escape ("https://" +:+ rest))
      with ("https://" +:+ UrlLib.html_escape rest).
    rewrite (startswith_append "https://"). apply orb_true_r.
Qed.

(** X2: a URL that [validate_url] returns starts with [http://] or
    [https://], whatever scheme (or none) the input had. *)
Theorem validate_url_output_has_web_scheme url v :
  validate_url url = inr v ->
  Str.startswith v "http://" || Str.startswith v "https://" = true.
Proof.
  intros (_ & _ & ->)%validate_url_inr.
  apply html_escape_keeps_scheme, normalized_url_scheme.
Qed.

Lemma validate_url_output_has_web_scheme_witness :
  Str.startswith "https://ftp.example.com/file" "http://"
  || Str.startswith "https://ftp.example.com/file" "https://" = true.
Proof.
  exact (validate_url_output_has_web_scheme " ftp.example.com/file " _ eq_refl).
Defined.

Lemma rstrip_idem p s : Str.rstrip_by p (Str.rstrip_by p s) = Str.rstrip_by p s.
Proof.
  induction s as [|c s IH]; [reflexivity|]. simpl.
  destruct (Str.is_empty (Str.rstrip_by p s) && p c) eqn:E; [reflexivity|].
  simpl. by rewrite IH, E.
Qed.

Lemma rstrip_cons_kept p c s :
  p c = false -> Str.rstrip_by p (String c s) = String c (Str.rstrip_by p s).
Proof. intros H. simpl. by rewrite H, andb_false_r. Qed.

(** Left-stripping leaves nothing or a string whose first character stays. *)
Lemma lstrip_head p s :
  Str.lstrip_by p s = "" \/
  exists c r, Str.lstrip_by p s = String c r /\ p c = false.
Proof.
  induction s as [|c s IH]; [by left|]. simpl.
  destruct (p c) eqn:E; [exact IH|]. right. by exists c, s.
Qed.

Lemma strip_idem s : Str.strip (Str.strip s) = Str.strip s.
Proof.
  unfold Str.strip.
  destruct (lstrip_head Str.isspace s) as [->|(c & r & -> & Hc)]; [reflexivity|].
  rewrite rstrip_cons_kept by done. cbn [Str.lstrip_by]. rewrite Hc.
  rewrite <- rstrip_cons_kept by done. apply rstrip_idem.
Qed.

Lemma normalized_url_strip url : normalized_url (Str.strip url) = normalized_url url.
Proof. unfold normalized_url. by rewrite strip_idem. Qed.

Lemma validate_url_unfold url :
  url <> "" ->
  validate_url url =
    match check_url (normalized_url url) with
    | inl e => inl (ValueError ("Invalid URL: " +:+ exn_str e))
    | inr v => inr v
    end.
Proof. by destruct url. Qed.

(** X3: surrounding whitespace does not matter to the validator, as long
    as something is left when it is trimmed. *)
Theorem validate_url_ignores_surrounding_whitespace url :
  Str.strip url <> "" -> validate_url url = validate_url (Str.strip url).
Proof.
  intros Hs.
  assert (url <> "") as Hu by (by intros ->).
  by rewrite !validate_url_unfold, normalized_url_strip.
Qed.

Lemma validate_url_ignores_surrounding_whitespace_witness :
  validate_url (String "009" " example.com/a b  ") = validate_url "example.com/a b".
Proof.
  exact (validate_url_ignores_surrounding_whitespace
           (String "009" " example.com/a b  ") ltac:(discriminate)).
Defined.

Lemma contains_append c a b :
  Str.contains c (a +:+ b) = Str.contains c a || Str.contains c b.
Proof.
  induction a as [|d a IH]; simpl; [done|]. by rewrite IH, orb_assoc.
Qed.

(** Escaping a string leaves it as it is when the result has no ampersand. *)
Lemma html_escape_id s :
  Str.contains "&" (UrlLib.html_escape s) = false -> UrlLib.html_escape s = s.
Proof.
  induction s as [|c s IH]; [reflexivity|]. simpl.
  rewrite contains_append. intros [Hc Hs]%orb_false_elim.
  rewrite (IH Hs). unfold UrlLib.escape_char in *.
  repeat match type of Hc with
         | context [if ?b then _ else _] => destruct b; [discriminate Hc|]
         end.
  reflexivity.
Qed.

Lemma rstrip_append_kept p a b :
  Str.forallb (fun c => negb (p c)) a = true ->
  Str.rstrip_by p (a +:+ b) = a +:+ Str.rstrip_by p b.
Proof.
  induction a as [|c a IH]; [reflexivity|]. simpl.
  intros [Hc Ha]%andb_prop. apply negb_true_iff in Hc.
  by rewrite IH, Hc, andb_false_r.
Qed.

Lemma normalized_url_is_stripped url :
  Str.strip (normalized_url url) = normalized_url url.
Proof.
  pose proof (normalized_url_scheme url) as Hscheme.
  assert (Str.lstrip_by Str.isspace (normalized_url url) = normalized_url url) as Hl.
  { apply orb_prop in Hscheme as [H|H]; apply startswith_inv in H as [rest ->];
      reflexivity. }
  unfold Str.strip. rewrite Hl. unfold normalized_url.
  destruct (Str.startswith (Str.strip url) "http://"
            || Str.startswith (Str.strip url) "https://").
  - apply rstrip_idem.
  - rewrite rstrip_append_kept by reflexivity. f_equal. apply rstrip_idem.
Qed.

Lemma normalized_url_idem url : normalized_url (normalized_url url) = normalized_url url.
Proof.
  unfold normalized_url at 1. rewrite normalized_url_is_stripped.
  by rewrite normalized_url_scheme.
Qed.

(** X4: the validator is idempotent on what it returns whenever that
    holds no ampersand, that is, whenever nothing had to be escaped. *)
Theorem validate_url_idempotent_without_ampersand url v :
  validate_url url = inr v ->
  Str.contains "&" v = false ->
  validate_url v = inr v.
Proof.
  intros (_ & Hcheck & ->)%validate_url_inr Hamp.
  rewrite (html_escape_id _ Hamp) in *.
  rewrite validate_url_unfold, normalized_url_idem, Hcheck; [done|].
  pose proof (normalized_url_scheme url) as [H|H]%orb_prop;
    apply startswith_inv in H as [rest ->]; discriminate.
Qed.

Lemma validate_url_idempotent_without_ampersand_witness :
  validate_url "https://example.com/path?a=1" = inr "https://example.com/path?a=1".
Proof.
  exact (validate_url_idempotent_without_ampersand " example.com/path?a=1" _
           eq_refl eq_refl).
Defined.


(** ** More on the scan *)

Lemma int_true_div_error a b e :
  Py.int_true_div a b = inl e -> e = ZeroDivisionError \/ e = OverflowError.
Proof.
  unfold Py.int_true_div. destruct (b =? 0); [intros [= <-]; by left|].
  destruct (_ <=? _); [intros [= <-]; by right | discriminate].
Qed.

Lemma overflow_threshold_above_sizes : 2 ^ 63 < Py.overflow_threshold.
Proof. reflexivity. Qed.

(** The size in KB of a body of fewer than 2^63 bytes is a float. *)
Lemma page_size_defined n :
  0 <= n < 2 ^ 63 -> exists size, Py.int_true_div n 1024 = inr size.
Proof.
  intros Hn. unfold Py.int_true_div. cbn [Z.eqb].
  pose proof overflow_threshold_above_sizes as Hbig.
  destruct (Z.leb_spec (Py.overflow_threshold * Z.abs 1024) (Z.abs n)) as [Hle|_];
    [|eauto].
  exfalso. change (Z.abs 1024) with 1024 in Hle. lia.
Qed.

Lemma on_request_error_cases w e :
  (exists msg, e = RequestException msg) \/ on_request_error w e = None.
Proof. destruct e; eauto. Qed.

(** What every scan result looks like. *)
Lemma scan_website_result w url :
  exists r,
    scan_returned (scan_website w url) = inr r /\
    fully_populated (data r) = true /\
    ensure_defaults (PDict (data r)) = inr (PDict (data r)) /\
    (exists title,
        field (data r) "meta" "title" = Some (PStr title) /\
        field (data r) "meta" "title_length" = Some (PInt (Str.len title))) /\
    (status r = error ->
     exists msg,
       message r = Some msg /\
       last_issue (data r) = Some (PStr ("Scan error: " +:+ msg)) /\
       field (data r) "performance" "page_size_kb" = Some (PFloat 0.0)) /\
    (status r = success -> message r = None).
Proof.
  (* every way a scan can go: the validation, the transport's answer, the
     size of the body, the parse *)
  unfold scan_website, scan_body, fetch_and_extract.
  unfold ScanM.bind at 1 2 3. unfold ScanM.lift.
  destruct (validate_url url) as [?|validated_url];
    [|unfold ScanM.try_except at 1; unfold ScanM.bind at 1; unfold ScanM.fetch;
      destruct (session_get w validated_url) as [e|[final_url n page ? ? ?]];
      [destruct (on_request_error_cases w e) as [[? ->]|Hnone]; [|rewrite Hnone]
      |unfold ScanM.bind at 1 2; unfold ScanM.lift; cbn [content_length];
       destruct (Py.int_true_div n 1024) as [?|size] eqn:Hdiv;
       [apply int_true_div_error in Hdiv as [->| ->]
       |cbn [parsed]; destruct page as [msg|[[[title|]|] ? ? ? ? ? ? ? ? ? ?]]]]].
  all: (lazymatch goal with
        | |- exists r, ?call = inr r /\ _ =>
            let v := eval vm_compute in call in
            lazymatch v with
            | inr ?r0 => pose (r := r0); exists r
            end
        end).
  all: (split; [vm_compute; reflexivity|]).
  all: (split; [vm_compute; reflexivity|]).
  all: (split; [vm_compute; reflexivity|]).
  all: (split;
    [lazymatch goal with
     | |- exists _, ?o = _ /\ _ => exists_evaluated o; split; vm_compute; reflexivity
     end|]).
  all: (split; intros Hstatus;
         first [ discriminate Hstatus
               | reflexivity
               | lazymatch goal with
                 | |- exists _, ?o = _ /\ _ =>
                     exists_evaluated o; split; [reflexivity|];
                     split; vm_compute; reflexivity
                 end ]).
Qed.

(** X5: a scan never lets an exception out, whatever the validator, the
    transport and the parser do, and the record it returns holds every
    field of the data model. *)
Theorem scan_website_never_raises w url :
  exists r,
    scan_returned (scan_website w url) = inr r /\
    fully_populated (data r) = true.
Proof.
  destruct (scan_website_result w url) as (r & Hr & Hfull & _). eauto.
Qed.

(** X6: a result with status [error] carries the message of the exception,
    the last entry of its issues is that message after [Scan error: ], and
    its page size is 0.0; a result with status [success] has no message. *)
Theorem scan_website_error_result w url r :
  scan_returned (scan_website w url) = inr r ->
  (status r = error ->
   exists msg,
     message r = Some msg /\
     last_issue (data r) = Some (PStr ("Scan error: " +:+ msg)) /\
     field (data r) "performance" "page_size_kb" = Some (PFloat 0.0)) /\
  (status r = success -> message r = None).
Proof.
  intros Hr. destruct (scan_website_result w url) as (r' & Hr' & _ & _ & _ & Herr).
  rewrite Hr in Hr'. injection Hr' as <-. exact Herr.
Qed.

Lemma scan_website_error_result_witness :
  (status (result_of (scan_website timeout_env "not a url")) = error ->
   exists msg,
     message (result_of (scan_website timeout_env "not a url")) = Some msg /\
     last_issue (data (result_of (scan_website timeout_env "not a url"))) =
       Some (PStr ("Scan error: " +:+ msg)) /\
     field (data (result_of (scan_website timeout_env "not a url")))
       "performance" "page_size_kb" = Some (PFloat 0.0)) /\
  (status (result_of (scan_website timeout_env "not a url")) = success ->
   message (result_of (scan_website timeout_env "not a url")) = None).
Proof.
  apply (scan_website_error_result timeout_env "not a url").
  vm_compute. reflexivity.
Defined.

(** X7: in every record a scan returns the title is a string and
    [title_length] is its length. *)
Theorem scan_website_title_length w url r :
  scan_returned (scan_website w url) = inr r ->
  exists title,
    field (data r) "meta" "title" = Some (PStr title) /\
    field (data r) "meta" "title_length" = Some (PInt (Str.len title)).
Proof.
  intros Hr. destruct (scan_website_result w url) as (r' & Hr' & _ & _ & Htitle & _).
  rewrite Hr in Hr'. injection Hr' as <-. exact Htitle.
Qed.

Lemma scan_website_title_length_witness :
  exists title,
    field (data (result_of (scan_website page_env "example.com"))) "meta" "title" =
      Some (PStr title) /\
    field (data (result_of (scan_website page_env "example.com")))
      "meta" "title_length" = Some (PInt (Str.len title)).
Proof.
  apply (scan_website_title_length page_env "example.com").
  vm_compute. reflexivity.
Defined.

(** X8: a scan asks the transport at most once: for the validated URL when
    the validation passes, whatever the transport then answers, and not at
    all when it fails.  There is no second attempt. *)
Theorem scan_website_requests_once w url :
  requests_sent (scan_website w url) =
    match validate_url url with
    | inr validated_url => [validated_url]
    | inl _ => []
    end /\
  (length (requests_sent (scan_website w url)) <= 1)%nat.
Proof.
  rewrite scan_website_requests. unfold urls_to_request.
  split; [reflexivity|]. destruct (validate_url url); simpl; lia.
Qed.

(** X9: a response that arrived is recorded whatever the parse gives: the
    status is [success], the load time is the time elapsed, the page size
    is the body's length over 1024, [https] is read off the final URL, and
    a parse error adds one issue where a parsed page adds none. *)
Theorem scan_website_records_response w url validated_url response :
  validate_url url = inr validated_url ->
  session_get w validated_url = inr response ->
  0 <= content_length response < 2 ^ 63 ->
  exists r size,
    scan_returned (scan_website w url) = inr r /\
    status r = success /\
    Py.int_true_div (content_length response) 1024 = inr size /\
    field (data r) "performance" "page_size_kb" = Some (PFloat size) /\
    field (data r) "basic" "load_time" = Some (PFloat (elapsed w)) /\
    field (data r) "security" "https" =
      Some (PBool (Str.startswith (resp_url response) "https://")) /\
    data r !! "issues" =
      Some (PList match parsed response with
                  | inl msg => [PStr ("HTML parsing error: " +:+ msg)]
                  | inr _ => []
                  end).
Proof.
  intros Hvalid Hget Hsize.
  destruct (page_size_defined _ Hsize) as [size Hdiv].
  unfold scan_website, scan_body, fetch_and_extract.
  unfold ScanM.bind at 1 2 3. unfold ScanM.lift. rewrite Hvalid.
  unfold ScanM.try_except at 1. unfold ScanM.bind at 1. unfold ScanM.fetch.
  rewrite Hget. unfold ScanM.bind at 1 2. unfold ScanM.lift. rewrite Hdiv.
  clear Hvalid Hget Hsize.
  destruct response as [final_url n [msg|[[[title|]|] ? ? ? ? ? ? ? ? ? ?]] ? ? ?];
    cbn [parsed resp_url content_length] in *.
  all: lazymatch goal with
       | |- exists r _, ?call = inr r /\ _ =>
           let v := eval vm_compute in call in
           lazymatch v with
           | inr ?r0 => pose (r := r0); exists r, size
           end
       end.
  all: repeat split; try exact Hdiv; vm_compute; reflexivity.
Qed.

Lemma scan_website_records_response_witness :
  exists r size,
    scan_returned (scan_website page_env "example.com") = inr r /\
    status r = success /\
    Py.int_true_div 1536 1024 = inr size /\
    field (data r) "performance" "page_size_kb" = Some (PFloat size) /\
    field (data r) "basic" "load_time" = Some (PFloat (elapsed page_env)) /\
    field (data r) "security" "https" = Some (PBool true) /\
    data r !! "issues" = Some (PList []).
Proof.
  exact (scan_website_records_response page_env "example.com" "https://example.com"
           sample_response eq_refl eq_refl ltac:(cbn; lia)).
Defined.

(** X10: the record of a scan is one the sanitizer has nothing to fix:
    whatever the scan met, sanitizing its record returns the record as it
    is. *)
Theorem scan_website_data_is_sanitized w url r :
  scan_returned (scan_website w url) = inr r ->
  ensure_defaults (PDict (data r)) = inr (PDict (data r)).
Proof.
  intros Hr. destruct (scan_website_result w url) as (r' & Hr' & _ & Hfix & _).
  rewrite Hr in Hr'. by injection Hr' as <-.
Qed.

Lemma scan_website_data_is_sanitized_witness :
  ensure_defaults (PDict (data (result_of (scan_website page_env "example.com")))) =
    inr (PDict (data (result_of (scan_website page_env "example.com")))).
Proof.
  apply (scan_website_data_is_sanitized page_env "example.com").
  vm_compute. reflexivity.
Defined.

(** ** More on the sanitizer *)

(** X11: the sanitizer returns only on dicts whose six sections are dicts
    or missing.  An argument that is not a dict raises [AttributeError],
    and a record with a section bound to something other than a dict does
    not come back either. *)
Theorem ensure_defaults_returns_only_on_dict_sections r :
  (is_dict r = false -> ensure_defaults r = inl AttributeError) /\
  (forall r', ensure_defaults r = inr r' ->
              exists d, r = PDict d /\ sections_are_dicts d = true).
Proof.
  split.
  - by destruct r.
  - intros r' (d & -> & Hd & _)%ensure_defaults_returns. eauto.
Qed.

(** X12: the sanitizer writes only to the fields of its table: the other keys
    of the record, and the other keys of each of the six sections, are as
    they were. *)
Theorem ensure_defaults_frame d d' :
  ensure_defaults (PDict d) = inr (PDict d') ->
  (forall key, key ∉ sanitizer_defaults.*1 -> d' !! key = d !! key) /\
  (forall section fields key,
      (section, fields) ∈ sanitizer_defaults -> key ∉ fields.*1 ->
      field d' section key = field d section key).
Proof.
  intros (d0 & [= <-] & Hd & [= ->])%ensure_defaults_returns. split.
  - intros key Hkey. unfold sanitized. by rewrite update_all_lookup_notin.
  - intros section fields key Hsec Hkey. unfold field, sanitized.
    rewrite (update_all_lookup_in _ _ _ _ fields)
      by (done || apply sanitizer_sections_distinct).
    unfold fixed_section. rewrite update_all_lookup_notin by done.
    pose proof (sections_are_dicts_lookup _ _ _ Hd Hsec) as Hdict.
    by destruct (d !! section) as [[]|].
Qed.

Lemma ensure_defaults_frame_witness :
  (forall key, key ∉ sanitizer_defaults.*1 ->
               sanitized malformed_record !! key = malformed_record !! key) /\
  (forall section fields key,
      (section, fields) ∈ sanitizer_defaults -> key ∉ fields.*1 ->
      field (sanitized malformed_record) section key =
        field malformed_record section key).
Proof.
  exact (ensure_defaults_frame malformed_record (sanitized malformed_record) eq_refl).
Defined.

Lemma fixed_value_type key val current :
  Py.isinstance_type_of (fixed_value key val current) val = true.
Proof.
  unfold fixed_value. destruct current as [v|]; [|apply isinstance_of_own_type].
  destruct (Py.isinstance_type_of v val) eqn:E; [exact E | apply isinstance_of_own_type].
Qed.

Lemma sanitized_well_typed d :
  sections_are_dicts d = true -> well_typed_record (sanitized d).
Proof.
  intros Hd section fields key val Hsec Hkey.
  rewrite (sanitized_field _ _ fields _ val) by eauto using sections_are_dicts_lookup.
  eexists. split; [reflexivity | apply fixed_value_type].
Qed.

(** X13: what the sanitizer is for: in the record it returns, every field of its
    table is there and holds an instance of the type of the field's
    default. *)
Theorem ensure_defaults_types d d' section fields key val :
  ensure_defaults (PDict d) = inr (PDict d') ->
  (section, fields) ∈ sanitizer_defaults -> (key, val) ∈ fields ->
  exists v, field d' section key = Some v /\ Py.isinstance_type_of v val = true.
Proof.
  intros (d0 & [= <-] & Hd & [= ->])%ensure_defaults_returns.
  by apply sanitized_well_typed.
Qed.

Lemma ensure_defaults_types_witness :
  exists v,
    field (sanitized malformed_record) "performance" "page_size_kb" = Some v /\
    Py.isinstance_type_of v (PFloat 0.0) = true.
Proof.
  apply (ensure_defaults_types malformed_record (sanitized malformed_record)
           "performance"
           [("page_size_kb", PFloat 0.0); ("requests", PInt 0); ("dom_depth", PInt 0)]).
  - reflexivity.
  - unfold sanitizer_defaults. set_solver.
  - set_solver.
Defined.

(** ** More on the scorer *)

Lemma load_time_points_range v p : load_time_points v = inr p -> 0 <= p <= 4.
Proof. unfold load_time_points. intros H. res_inv; lia. Qed.

Lemma page_size_points_range v p : page_size_points v = inr p -> 0 <= p <= 2.
Proof. unfold page_size_points. intros H. res_inv; lia. Qed.

Lemma requests_points_range v p : requests_points v = inr p -> 0 <= p <= 2.
Proof. unfold requests_points. intros H. res_inv; lia. Qed.

Lemma dom_depth_points_range v p : dom_depth_points v = inr p -> -1 <= p <= 1.
Proof. unfold dom_depth_points. intros H. res_inv; lia. Qed.

(** The accumulator is at most 9, so its half never reaches 5. *)
Lemma performance_score_below_five basic perf s :
  performance_score basic perf = inr s -> 1 <= s <= 4.
Proof.
  unfold performance_score, perf_accumulator. intros H. res_inv.
  repeat match goal with
         | H : load_time_points _ = inr _ |- _ => apply load_time_points_range in H
         | H : page_size_points _ = inr _ |- _ => apply page_size_points_range in H
         | H : requests_points _ = inr _ |- _ => apply requests_points_range in H
         | H : dom_depth_points _ = inr _ |- _ => apply dom_depth_points_range in H
         end.
  Z.div_mod_to_equations. lia.
Qed.

Lemma mobile_score_values meta resources s :
  mobile_score meta resources = inr s -> s = 1 \/ s = 2 \/ s = 4 \/ s = 5.
Proof.
  unfold mobile_score. intros H. cbv zeta in H. res_inv; split_ifs; cbn; lia.
Qed.

Lemma first_impressions_score_above_one meta title description s :
  first_impressions_score meta title description = inr s -> 2 <= s <= 5.
Proof.
  unfold first_impressions_score. intros H. cbv zeta in H. res_inv; split_ifs; lia.
Qed.

Lemma content_quality_score_middle w response_text :
  2 <= content_quality_score w response_text <= 4.
Proof.
  unfold content_quality_score.
  destruct response_text as [text|]; [|lia].
  destruct (Str.is_empty text); [lia|].
  destruct (text_words w text) as [n|]; [|lia].
  destruct (500 <? n); [lia|]. destruct (n <? 100); lia.
Qed.

Lemma compute_scores_bounds w d response_text scores :
  compute_scores w d response_text = inr scores ->
  exists p s e m f c a,
    scores = [("Performance & Speed", p); ("Security & Compliance", s);
              ("SEO & Visibility", e); ("Mobile Responsiveness", m);
              ("First Impressions & Branding", f); ("Content Quality", c);
              ("Accessibility", a)] /\
    1 <= p <= 4 /\ 1 <= s <= 5 /\ 1 <= e <= 5 /\
    (m = 1 \/ m = 2 \/ m = 4 \/ m = 5) /\
    2 <= f <= 5 /\ 2 <= c <= 4 /\ 1 <= a <= 5.
Proof.
  unfold compute_scores. intros H. res_inv.
  do 7 eexists. split; [reflexivity|].
  repeat split;
    first [ apply content_quality_score_middle
          | eapply performance_score_below_five; eassumption
          | eapply security_score_range; eassumption
          | eapply seo_score_range; eassumption
          | eapply mobile_score_values; eassumption
          | eapply first_impressions_score_above_one; eassumption
          | eapply accessibility_score_range; eassumption ].
Qed.

(** X14: whenever the scorer returns, it returns the seven categories in their
    order, each with a score in 1..5; and some scores it never gives: a
    performance score of 5, a mobile score of 3, a first-impressions score
    of 1, a content score of 1 or 5. *)
Theorem auto_score_website_score_bounds w analysis_data response_text scores :
  returned (auto_score_website w analysis_data response_text) = inr scores ->
  exists p s e m f c a,
    scores = [("Performance & Speed", p); ("Security & Compliance", s);
              ("SEO & Visibility", e); ("Mobile Responsiveness", m);
              ("First Impressions & Branding", f); ("Content Quality", c);
              ("Accessibility", a)] /\
    1 <= p <= 4 /\ 1 <= s <= 5 /\ 1 <= e <= 5 /\
    (m = 1 \/ m = 2 \/ m = 4 \/ m = 5) /\
    2 <= f <= 5 /\ 2 <= c <= 4 /\ 1 <= a <= 5.
Proof.
  unfold auto_score_website. intros H.
  destruct analysis_data;
    destruct (fill_sections _ required_sections) as [[d' log] r];
    cbn [returned] in H; res_inv; eauto using compute_scores_bounds.
Qed.

Lemma auto_score_website_score_bounds_witness :
  exists p s e m f c a,
    default_scores 3 =
      [("Performance & Speed", p); ("Security & Compliance", s);
       ("SEO & Visibility", e); ("Mobile Responsiveness", m);
       ("First Impressions & Branding", f); ("Content Quality", c);
       ("Accessibility", a)] /\
    1 <= p <= 4 /\ 1 <= s <= 5 /\ 1 <= e <= 5 /\
    (m = 1 \/ m = 2 \/ m = 4 \/ m = 5) /\
    2 <= f <= 5 /\ 2 <= c <= 4 /\ 1 <= a <= 5.
Proof.
  exact (auto_score_website_score_bounds timeout_env
           (PDict (initialize_results timeout_env)) None (default_scores 3) eq_refl).
Defined.

(** X15: an argument that is not a dict is left alone: the scorer logs one
    warning and scores a fresh record of [initialize_results], whose scores
    are fixed but for the content score. *)
Theorem auto_score_website_on_non_dict w analysis_data response_text :
  is_dict analysis_data = false ->
  auto_score_website w analysis_data response_text =
    {| record_after := analysis_data;
       logged := [analysis_data_warning];
       returned := inr (default_scores (content_quality_score w response_text)) |}.
Proof.
  intros Hd. destruct analysis_data; try discriminate Hd; vm_compute; reflexivity.
Qed.

Lemma auto_score_website_on_non_dict_witness :
  auto_score_website timeout_env PNone None =
    {| record_after := PNone;
       logged := [analysis_data_warning];
       returned := inr (default_scores (content_quality_score timeout_env None)) |}.
Proof. exact (auto_score_website_on_non_dict timeout_env PNone None eq_refl). Defined.

Lemma auto_score_website_repeatable_witness :
  returned (auto_score_website timeout_env
              (record_after (auto_score_website timeout_env (PDict ∅) None)) None) =
    inr [("Performance & Speed", 1); ("Security & Compliance", 1);
         ("SEO & Visibility", 1); ("Mobile Responsiveness", 1);
         ("First Impressions & Branding", 2); ("Content Quality", 3);
         ("Accessibility", 1)] /\
  record_after (auto_score_website timeout_env
                  (record_after (auto_score_website timeout_env (PDict ∅) None)) None) =
    record_after (auto_score_website timeout_env (PDict ∅) None).
Proof.
  exact (auto_score_website_repeatable timeout_env (PDict ∅) None _ eq_refl).
Defined.

(** *** What the internal pass keeps *)

Lemma update_all_filled_keeps sec defaults key v :
  sec !! key = Some v ->
  (key = "page_size_kb" -> Py.is_int_or_float v = true) ->
  update_all filled_value sec defaults !! key = Some v.
Proof.
  intros Hv Hnum. revert sec Hv.
  induction defaults as [|[k dv] defaults IH]; intros sec Hv; [done|].
  rewrite update_all_cons. apply IH.
  destruct (decide (k = key)) as [->|Hne]; [|by rewrite lookup_insert_ne].
  rewrite lookup_insert_eq, Hv. f_equal. unfold filled_value.
  destruct (String.eqb_spec key "page_size_kb") as [Hk|_]; [|done].
  cbn [default from_option id]. by rewrite (Hnum Hk).
Qed.

Lemma fill_section_keeps d s defaults section key v :
  field d section key = Some v ->
  (key = "page_size_kb" -> Py.is_int_or_float v = true) ->
  field (fill_section d s defaults).1.1 section key = Some v.
Proof.
  intros Hv Hnum. rewrite fill_section_spec. unfold field in *.
  destruct (decide (s = section)) as [->|Hne]; [|by rewrite lookup_insert_ne].
  rewrite lookup_insert_eq.
  destruct (d !! section) as [[| | | | | |sec]|]; try discriminate Hv.
  cbn [filled_section]. by apply update_all_filled_keeps.
Qed.

Lemma fill_sections_keeps sections d section key v :
  field d section key = Some v ->
  (key = "page_size_kb" -> Py.is_int_or_float v = true) ->
  field (fill_sections d sections).1.1 section key = Some v.
Proof.
  intros Hv Hnum. revert d Hv.
  induction sections as [|[s defaults] sections IH]; intros d Hv; [done|].
  cbn [fill_sections].
  pose proof (fill_section_keeps d s defaults section key v Hv Hnum) as Hstep.
  destruct (fill_section d s defaults) as [[d1 log1] [e|[]]]; cbn [fst] in Hstep; [done|].
  specialize (IH d1 Hstep).
  by destruct (fill_sections d1 sections) as [[d2 log2] r].
Qed.

(** X17: the scorer's internal pass only adds: a field that is in the record
    stays as it is, whether or not the call then raises.  The one
    exception is a [page_size_kb] that is not a number. *)
Theorem auto_score_website_keeps_present_fields w d response_text section key v :
  field d section key = Some v ->
  (key = "page_size_kb" -> Py.is_int_or_float v = true) ->
  exists d',
    record_after (auto_score_website w (PDict d) response_text) = PDict d' /\
    field d' section key = Some v.
Proof.
  intros Hv Hnum. unfold auto_score_website.
  pose proof (fill_sections_keeps required_sections d section key v Hv Hnum) as Hkept.
  destruct (fill_sections d required_sections) as [[d' log] r].
  exists d'. by split.
Qed.

Lemma auto_score_website_keeps_present_fields_witness :
  exists d',
    record_after (auto_score_website timeout_env (PDict malformed_record) None) = PDict d' /\
    field d' "basic" "load_time" = Some (PInt 3).
Proof.
  exact (auto_score_website_keeps_present_fields timeout_env malformed_record None
           "basic" "load_time" (PInt 3) eq_refl ltac:(discriminate)).
Defined.

(** ** The sanitizer, then the scorer *)

(** A well-typed record is scorable as soon as its image counts are
    consistent: these the sanitizer does not look at. *)
Lemma well_typed_record_scorable d :
  well_typed_record d ->
  counts_ok (field d "resources" "images")
            (field d "accessibility" "alt_text_images") = true ->
  scorable_record d = true.
Proof.
  intros H Hcounts.
  typed_field H "basic" "load_time" (PFloat 0.0).
  typed_field H "performance" "page_size_kb" (PFloat 0.0).
  typed_field H "performance" "requests" (PInt 0).
  typed_field H "performance" "dom_depth" (PInt 0).
  typed_field H "meta" "title" (PStr "").
  typed_field H "meta" "description" (PStr "").
  typed_field H "resources" "stylesheets" (PInt 0).
  typed_field H "security" "https" (PBool false).
  typed_field H "accessibility" "alt_text_images" (PInt 0).
  typed_field H "accessibility" "aria_attributes" (PInt 0).
  clear H.
  unfold scorable_record, complete_record, required_sections, field in *.
  cbn [forallb fst snd] in *.
  destruct (d !! "basic") as [[| | | | | |basic]|]; try discriminate.
  destruct (d !! "performance") as [[| | | | | |perf]|]; try discriminate.
  destruct (d !! "meta") as [[| | | | | |meta]|]; try discriminate.
  destruct (d !! "resources") as [[| | | | | |resources]|]; try discriminate.
  destruct (d !! "security") as [[| | | | | |security]|]; try discriminate.
  destruct (d !! "accessibility") as [[| | | | | |accessibility]|]; try discriminate.
  cbn [section_filled forallb fst snd].
  repeat match goal with
         | Hv : ?sec !! ?k = Some _ |- _ => rewrite Hv in *; clear Hv
         end.
  repeat match goal with
         | Ht : Py.isinstance_type_of ?v _ = true |- _ =>
             destruct v; try discriminate Ht; clear Ht
         end.
  all: cbn; cbn in Hcounts; by rewrite ?Hcounts.
Qed.

Lemma ensure_defaults_output_scorable r d' :
  ensure_defaults r = inr (PDict d') ->
  counts_ok (field d' "resources" "images")
            (field d' "accessibility" "alt_text_images") = true ->
  scorable_record d' = true.
Proof.
  intros (d & -> & Hd & [= ->])%ensure_defaults_returns Hcounts.
  by apply well_typed_record_scorable; [apply sanitized_well_typed|].
Qed.

(** X18: what the sanitizer returns the scorer accepts: it scores the record
    without changing it or logging, provided the image counts, which the
    sanitizer does not check, are consistent. *)
Theorem sanitized_record_is_scored w r d' response_text :
  ensure_defaults r = inr (PDict d') ->
  counts_ok (field d' "resources" "images")
            (field d' "accessibility" "alt_text_images") = true ->
  exists scores,
    auto_score_website w (PDict d') response_text =
      {| record_after := PDict d'; logged := []; returned := inr scores |}.
Proof.
  intros Hfix Hcounts.
  pose proof (ensure_defaults_output_scorable _ _ Hfix Hcounts) as Hs.
  pose proof Hs as [Hc _]%andb_prop.
  destruct (compute_scores_total w _ response_text Hs) as [scores Hscores].
  exists scores. rewrite auto_score_website_on_complete by done. by rewrite Hscores.
Qed.

Lemma sanitized_record_is_scored_witness :
  exists scores,
    auto_score_website timeout_env (PDict (sanitized malformed_record)) None =
      {| record_after := PDict (sanitized malformed_record);
         logged := []; returned := inr scores |}.
Proof.
  exact (sanitized_record_is_scored timeout_env (PDict malformed_record)
           (sanitized malformed_record) None eq_refl eq_refl).
Defined.

(** Without that proviso the scorer can raise on a sanitized record: the
    sanitizer leaves an image count that is a string. *)
Example sanitized_record_with_bad_image_count :
  ensure_defaults (Py.dict [("resources", Py.dict [("images", PStr "many")])]) =
    inr (PDict (sanitized (list_to_map [("resources", Py.dict [("images", PStr "many")])]))) /\
  returned (auto_score_website timeout_env
              (PDict (sanitized (list_to_map [("resources", Py.dict [("images", PStr "many")])])))
              None) = inl TypeError.
Proof. split; reflexivity. Qed.

(** ** More on the report rows *)

Lemma index_in_range {A} (l : list A) i :
  0 <= i < Z.of_nat (length l) -> exists x, Py.index l i = inr x.
Proof.
  intros Hi. unfold Py.index.
  destruct (Z.ltb_spec i 0) as [|_]; [lia|].
  destruct (Z.leb_spec 0 i) as [_|]; [|lia].
  destruct (Z.ltb_spec i (Z.of_nat (length l))) as [_|]; [|lia].
  cbn [andb]. destruct (nth_error l (Z.to_nat i)) as [x|] eqn:E; [eauto|].
  apply nth_error_None in E. lia.
Qed.

Lemma index_wraps {A} (l : list A) i :
  - Z.of_nat (length l) <= i < 0 -> Py.index l i = Py.index l (Z.of_nat (length l) + i).
Proof.
  intros Hi. unfold Py.index.
  destruct (Z.ltb_spec i 0) as [_|]; [|lia].
  destruct (Z.ltb_spec (Z.of_nat (length l) + i) 0) as [|_]; [lia|].
  reflexivity.
Qed.

Lemma index_out_of_range {A} (l : list A) i :
  i < - Z.of_nat (length l) \/ Z.of_nat (length l) <= i -> Py.index l i = inl IndexError.
Proof.
  intros Hi. unfold Py.index.
  destruct (Z.ltb_spec i 0).
  - destruct (Z.leb_spec 0 (Z.of_nat (length l) + i)); [lia | reflexivity].
  - destruct (Z.ltb_spec i (Z.of_nat (length l))); [lia|].
    by rewrite andb_false_r.
Qed.

Lemma recommendation_for_catalog category c score :
  CATEGORIES !! category = Some c ->
  recommendation_for category score = Py.index (recommendations c) (score - 1).
Proof. unfold recommendation_for. intros ->. by destruct c. Qed.

(** Every entry of the catalog has five recommendations. *)
Lemma catalog_five_recommendations category c :
  CATEGORIES !! category = Some c -> length (recommendations c) = 5%nat.
Proof.
  unfold CATEGORIES. intros Hin%elem_of_list_to_map_2.
  repeat (apply elem_of_cons in Hin as [[= -> ->]|Hin]; [reflexivity|]).
  by apply elem_of_nil in Hin.
Qed.

(** X19: on a score set whose categories are all in the catalog and whose
    scores are on the scale, the report rows are built: one row for each
    score, in order, with the category and the score it was given. *)
Theorem create_results_dataframe_on_catalog scores url :
  catalog_scores scores ->
  exists rows,
    create_results_dataframe scores url = inr rows /\
    map Section_ rows = map fst scores /\
    map Score rows = map snd scores.
Proof.
  unfold create_results_dataframe.
  induction 1 as [|[category score] scores [[c Hc] Hscore] _ (rows & Hrows & Hs & Hn)].
  - by exists [].
  - cbn [fst snd] in *. cbn [dataframe_rows].
    destruct (index_in_range (recommendations c) (score - 1)) as [text Htext].
    { rewrite (catalog_five_recommendations _ _ Hc). lia. }
    rewrite (recommendation_for_catalog _ _ _ Hc), Htext, Hrows. cbn [bind ret].
    eexists. split; [reflexivity|]. cbn [map Section_ Score fst snd]. by rewrite Hs, Hn.
Qed.

Lemma create_results_dataframe_on_catalog_witness :
  exists rows,
    create_results_dataframe [("Accessibility", 3); ("User Experience (UX)", 5)]
                             "https://example.com" = inr rows /\
    map Section_ rows = ["Accessibility"; "User Experience (UX)"] /\
    map Score rows = [3; 5].
Proof.
  apply (create_results_dataframe_on_catalog
           [("Accessibility", 3); ("User Experience (UX)", 5)] "https://example.com").
  repeat constructor; cbn; (by eexists) || lia.
Defined.

(** X20: off the scale the lookup does not always fail: the index [score - 1]
    is negative for a score from -4 to 0 and counts from the end of the
    list, so that a score of 0 gets the recommendation of a score of 5;
    any other score raises [IndexError]. *)
Theorem recommendation_off_the_scale category score :
  is_Some (CATEGORIES !! category) ->
  (-4 <= score <= 0 ->
   recommendation_for category score = recommendation_for category (score + 5)) /\
  (score < -4 \/ 5 < score -> recommendation_for category score = inl IndexError).
Proof.
  intros [c Hc]. rewrite !(recommendation_for_catalog _ _ _ Hc).
  pose proof (catalog_five_recommendations _ _ Hc) as Hlen.
  split; intros Hs.
  - rewrite index_wraps by lia. f_equal. lia.
  - apply index_out_of_range. lia.
Qed.

Lemma recommendation_off_the_scale_witness :
  recommendation_for "Accessibility" 0 = recommendation_for "Accessibility" (0 + 5) /\
  recommendation_for "Accessibility" 6 = inl IndexError.
Proof.
  split.
  - apply (recommendation_off_the_scale "Accessibility" 0); [by eexists | lia].
  - apply (recommendation_off_the_scale "Accessibility" 6); [by eexists | lia].
Defined.

(** ** More on the route *)

Lemma ensure_page_size_id d :
  scorable_record d = true -> ensure_page_size (PDict d) = inr (PDict d).
Proof.
  unfold scorable_record. intros [_ H]%andb_prop.
  unfold ensure_page_size. cbn [Py.get bind ret].
  destruct (d !! "basic") as [[| | | | | |basic]|]; try discriminate H.
  destruct (d !! "performance") as [[| | | | | |perf]|]; try discriminate H.
  destruct (d !! "security") as [[| | | | | |security]|]; try discriminate H.
  destruct (d !! "meta") as [[| | | | | |meta]|]; try discriminate H.
  destruct (d !! "accessibility") as [[| | | | | |accessibility]|]; try discriminate H.
  destruct (d !! "resources") as [[| | | | | |resources]|]; try discriminate H.
  repeat match type of H with
         | _ && _ = true => let H' := fresh "H" in apply andb_prop in H as [H H']
         end.
  cbn [default from_option id].
  by destruct (perf !! "page_size_kb").
Qed.

(** X22: what a POST to [index] shows once the form's URL has passed the
    validation: the record of the scan goes through the sanitizer and the
    scorer, the report rows fail on the category the catalog lacks, and the
    page shown is the form again with that category's name as the error,
    also when the scan itself met a failure. *)
Theorem index_post_reports_content_quality w form_url validated_url r :
  validate_url (Str.strip form_url) = inr validated_url ->
  scan_returned (scan_website w validated_url) = inr r ->
  counts_ok (field (data r) "resources" "images")
            (field (data r) "accessibility" "alt_text_images") = true ->
  page (index_post w form_url) = IndexPage (Some "'Content Quality'").
Proof.
  intros Hvalid Hr Hcounts. unfold index_post.
  destruct (Str.strip form_url) as [|c s]; [discriminate Hvalid|].
  cbn [Str.is_empty]. rewrite Hvalid. cbv zeta. cbn [page]. rewrite Hr. cbn [bind].
  destruct (scan_website_result w validated_url) as (r' & Hr' & _ & Hfix & _).
  rewrite Hr in Hr'. injection Hr' as <-.
  pose proof (ensure_defaults_output_scorable _ _ Hfix Hcounts) as Hs.
  rewrite Hfix. cbn [bind]. rewrite ensure_page_size_id by done. cbn [bind].
  destruct (auto_score_website_total w _ None Hs) as [scores Hscores].
  rewrite Hscores. cbn [bind].
  by rewrite (create_results_dataframe_raises _ _ _ _ validated_url Hscores).
Qed.

Lemma index_post_reports_content_quality_witness :
  page (index_post timeout_env "  example.com ") = IndexPage (Some "'Content Quality'").
Proof.
  apply (index_post_reports_content_quality timeout_env "  example.com "
           "https://example.com"
           (result_of (scan_website timeout_env "https://example.com")));
    vm_compute; reflexivity.
Defined.
